(** * The serialization facade of the Hazelcast Node.js client

    A shallow embedding of [src/serialization/SerializationService.ts]:
    the codec registry, the precedence-based resolver and the four facade
    operations [toData], [toObject], [writeObject] and [readObject],
    followed by the properties the specification states about them. *)

From Stdlib Require Import ZArith String List Bool Lia.
From stdpp Require Import base option list strings pretty gmap fin_maps.

Local Open Scope Z_scope.

#[local] Set Warnings "-register-all".

(** ** Runtime values

    The facade receives values of type [any].  Only the features the
    facade itself inspects are represented: the two absent values, the
    primitive kinds, buffers, arrays, class instances with their own
    properties, and envelopes.  Numbers are the integral ones: dispatch
    never looks at a fraction.  A method is represented by the value its
    call returns, or by the message of the [RangeError] it raises. *)

Inductive Value : Type :=
| VUndefined
| VNull
| VBoolean (b : bool)
| VNumber (n : Z)
| VBigInt (n : Z)
| VString (s : string)
| VBuffer (bytes : list Z)
| VArray (elems : list Value)
| VMethod (ret : Value)
| VThrower (msg : string)
| VObject (cls : string) (fields : list (string * Value))
| VHeapData (payload : list Z).

(** ** Exceptions and the error monad *)

Inductive Error : Type :=
| RangeError (msg : string)
| RangeErrorAbout (msg : string) (v : Value)
| TypeError (msg : string).

Inductive Result (A : Type) : Type :=
| Ok (a : A)
| Throw (e : Error).

Arguments Ok {A} a.
Arguments Throw {A} e.

#[global] Instance Result_ret : MRet Result := fun A a => Ok a.

#[global] Instance Result_bind : MBind Result := fun A B f m =>
  match m with
  | Ok a => f a
  | Throw e => Throw e
  end.

#[global] Instance Result_fmap : FMap Result := fun A B f m =>
  match m with
  | Ok a => Ok (f a)
  | Throw e => Throw e
  end.

Definition succeeded {A} (r : Result A) : bool :=
  match r with Ok _ => true | Throw _ => false end.

(** ** JavaScript primitives used by the facade *)

(** [x == null] *)
Definition nullish (v : Value) : bool :=
  match v with
  | VUndefined | VNull => true
  | _ => false
  end.

(** Truthiness, as tested by [if (x)] and [!x]. *)
Definition truthy (v : Value) : bool :=
  match v with
  | VUndefined | VNull => false
  | VBoolean b => b
  | VNumber n | VBigInt n => negb (n =? 0)
  | VString s => negb (String.eqb s "")
  | _ => true
  end.

(** [typeof x === 'number'] *)
Definition typeof_number (v : Value) : bool :=
  match v with
  | VNumber _ => true
  | _ => false
  end.

(** Own-property lookup in a field list; an unknown key reads [undefined]. *)
Fixpoint lookupField (name : string) (fields : list (string * Value)) : Value :=
  match fields with
  | [] => VUndefined
  | (k, x) :: rest => if String.eqb k name then x else lookupField name rest
  end.

(** [obj.length] and [obj[0]] *)
Definition getLength (obj : Value) : Value :=
  match obj with
  | VArray elems => VNumber (Z.of_nat (length elems))
  | VBuffer bytes => VNumber (Z.of_nat (length bytes))
  | _ => VUndefined
  end.

Definition getFirst (obj : Value) : Value :=
  match obj with
  | VArray (first :: _) => first
  | VBuffer (b :: _) => VNumber b
  | _ => VUndefined
  end.

(** [a === b] against a number literal *)
Definition strictEqNumber (v : Value) (n : Z) : bool :=
  match v with
  | VNumber m => m =? n
  | _ => false
  end.

(** [obj.constructor], by the name of the class. *)
Definition constructorOf (v : Value) : string :=
  match v with
  | VUndefined => "undefined"
  | VNull => "null"
  | VBoolean _ => "Boolean"
  | VNumber _ => "Number"
  | VBigInt _ => "BigInt"
  | VString _ => "String"
  | VBuffer _ => "Buffer"
  | VArray _ => "Array"
  | VMethod _ | VThrower _ => "Function"
  | VObject cls _ => cls
  | VHeapData _ => "HeapData"
  end.

(** ** 32-bit integers on the wire *)

Definition byteAt (n : Z) (k : Z) : Z := Z.land (Z.shiftr n (8 * k)) 255.

Definition int32BE (n : Z) : list Z := [byteAt n 3; byteAt n 2; byteAt n 1; byteAt n 0].

Definition int32LE (n : Z) : list Z := [byteAt n 0; byteAt n 1; byteAt n 2; byteAt n 3].

Definition isInt32 (n : Z) : bool := (- 2 ^ 31 <=? n) && (n <? 2 ^ 31).

Definition toSigned32 (u : Z) : Z := if u <? 2 ^ 31 then u else u - 2 ^ 32.

Definition ofBytesBE (b3 b2 b1 b0 : Z) : Z :=
  toSigned32 (((b3 * 256 + b2) * 256 + b1) * 256 + b0).

(** Four bytes of [buf] starting at [pos], when they exist. *)
Definition fourBytesAt (buf : list Z) (pos : nat) : option (Z * Z * Z * Z) :=
  match drop pos buf with
  | a :: b :: c :: d :: _ => Some (a, b, c, d)
  | _ => None
  end.

Definition readInt32BE (buf : list Z) (pos : nat) : option Z :=
  match fourBytesAt buf pos with
  | Some (a, b, c, d) => Some (ofBytesBE a b c d)
  | None => None
  end.

Definition readInt32LE (buf : list Z) (pos : nat) : option Z :=
  match fourBytesAt buf pos with
  | Some (a, b, c, d) => Some (ofBytesBE d c b a)
  | None => None
  end.

(** ** Cursors and envelopes

    [ObjectData.ts] and [HeapData.ts] are not among the sources; the wire
    layout of §6 fixes what the facade needs of them: two [int32] header
    fields and then the payload. *)

Record DataOutput : Type := mkDataOutput {
  out_buffer : list Z;
  out_bigEndian : bool
}.

Record DataInput : Type := mkDataInput {
  in_buffer : Value;
  in_pos : nat;
  in_bigEndian : bool
}.

Definition new_PositionalObjectDataOutput (bigEndian : bool) : DataOutput :=
  mkDataOutput [] bigEndian.

Definition new_ObjectDataInput (buffer : Value) (offset : nat) (bigEndian : bool) : DataInput :=
  mkDataInput buffer offset bigEndian.

Definition appendBytes (out : DataOutput) (bs : list Z) : DataOutput :=
  mkDataOutput (out_buffer out ++ bs) (out_bigEndian out).

(** Modelled from the spec: [PositionalObjectDataOutput.writeIntBE] is
    missing.  It appends one [int32] field of the layout of §6; as the
    method's name says the four bytes are big-endian whatever order the
    cursor was created with.  A value that is no 32-bit integer is
    refused, as Node's buffer writes do. *)
Definition writeIntBE (out : DataOutput) (v : Value) : Result DataOutput :=
  match v with
  | VNumber n =>
      if isInt32 n then Ok (appendBytes out (int32BE n))
      else Throw (RangeError "The value is out of range for a 32-bit integer")
  | _ => Throw (TypeError "The value argument must be of type number")
  end.

(** Modelled from the spec: [DataOutput.writeInt] is missing.  It appends
    one [int32] in the byte order configured for the cursor. *)
Definition writeInt (out : DataOutput) (v : Value) : Result DataOutput :=
  match v with
  | VNumber n =>
      if isInt32 n
      then Ok (appendBytes out (if out_bigEndian out then int32BE n else int32LE n))
      else Throw (RangeError "The value is out of range for a 32-bit integer")
  | _ => Throw (TypeError "The value argument must be of type number")
  end.

Definition toBuffer (out : DataOutput) : list Z := out_buffer out.

(** Modelled from the spec: [DataInput.readInt] is missing.  It consumes
    one [int32] in the byte order configured for the cursor. *)
Definition readInt (inp : DataInput) : Result (Z * DataInput) :=
  match in_buffer inp with
  | VBuffer buf =>
      match (if in_bigEndian inp then readInt32BE else readInt32LE) buf (in_pos inp) with
      | Some n => Ok (n, mkDataInput (in_buffer inp) (in_pos inp + 4)%nat (in_bigEndian inp))
      | None => Throw (RangeError "Attempt to access memory outside buffer bounds")
      end
  | _ => Throw (TypeError "The input is not backed by a buffer")
  end.

Definition PARTITION_HASH_OFFSET : nat := 0.
Definition TYPE_OFFSET : nat := 4.
Definition DATA_OFFSET : nat := 8.

(** Modelled from the spec: [HeapData.getType] is missing.  An envelope
    is built from the output bytes alone and keeps no reference to the
    facade, so the type id is read back in the fixed order in which
    [toData] wrote it: the big-endian [int32] at [TYPE_OFFSET]. *)
Definition HeapData_getType (payload : list Z) : Value :=
  match readInt32BE payload TYPE_OFFSET with
  | Some t => VMethod (VNumber t)
  | None => VThrower "Attempt to access memory outside buffer bounds"
  end.

(** ** The codec contract ([Serializer] in [Serializable.ts]) *)

Record Serializer : Type := mkSerializer {
  id : Z;
  write : DataOutput -> Value -> Result DataOutput;
  read : DataInput -> Result (Value * DataInput)
}.

(** What a lookup hands back: a codec, [null], or [undefined]. *)
Inductive SerializerRef : Type :=
| SUndefined
| SNull
| SCodec (s : Serializer).

Definition isNullRef (r : SerializerRef) : bool :=
  match r with SNull => true | _ => false end.

(** [serializer.id], [serializer.write(out, obj)], [serializer.read(inp)]
    on a reference that may be no codec at all. *)
Definition ref_id (r : SerializerRef) : Result Z :=
  match r with
  | SCodec s => Ok (id s)
  | SNull => Throw (TypeError "Cannot read properties of null (reading 'id')")
  | SUndefined => Throw (TypeError "Cannot read properties of undefined (reading 'id')")
  end.

Definition ref_write (r : SerializerRef) (out : DataOutput) (obj : Value) : Result DataOutput :=
  match r with
  | SCodec s => write s out obj
  | SNull => Throw (TypeError "Cannot read properties of null (reading 'write')")
  | SUndefined => Throw (TypeError "Cannot read properties of undefined (reading 'write')")
  end.

Definition ref_read (r : SerializerRef) (inp : DataInput) : Result (Value * DataInput) :=
  match r with
  | SCodec s => read s inp
  | SNull => Throw (TypeError "Cannot read properties of null (reading 'read')")
  | SUndefined => Throw (TypeError "Cannot read properties of undefined (reading 'read')")
  end.

(** ** Configuration ([SerializationConfigImpl]) *)

Inductive JsonStringDeserializationPolicy : Type :=
| EAGER
| NO_DESERIALIZATION.

Record SerializationConfigImpl : Type := mkConfig {
  defaultNumberType : string;
  isBigEndian : bool;
  jsonStringDeserializationPolicy : JsonStringDeserializationPolicy;
  dataSerializableFactories : gmap Z string;
  customSerializers : list Serializer;
  compact_serializers : list string;
  globalSerializer : option Serializer
}.

(** ** Collaborators constructed by the facade

    The codec classes of [DefaultSerializers.ts], the three structured
    codecs and the built-in factory ids live outside the sources; the
    facade only instantiates them, so they are taken as a table:
    [new_default "StringSerializer"] stands for [new StringSerializer()]. *)

Record Collaborators : Type := mkCollaborators {
  new_default : string -> Serializer;
  new_CompactStreamSerializer : Serializer;
  new_PortableSerializer : SerializationConfigImpl -> Serializer;
  new_IdentifiedDataSerializableSerializer : gmap Z string -> Serializer;
  PREDICATE_FACTORY_ID : Z;
  RELIABLE_TOPIC_MESSAGE_FACTORY_ID : Z;
  CLUSTER_DATA_FACTORY_ID : Z;
  AGGREGATOR_FACTORY_ID : Z;
  REST_VALUE_FACTORY_ID : Z
}.

(** ** The facade state ([SerializationServiceV1]) *)

Record SerializationServiceV1 : Type := mkService {
  registry : gmap Z Serializer;
  serializerNameToId : gmap string Z;
  compactStreamSerializer : Serializer;
  compactClasses : gset string;
  portableSerializer : Serializer;
  identifiedSerializer : Serializer;
  serializationConfig : SerializationConfigImpl
}.

Section Facade.

(** [HeapData.getPartitionHash], a function of the envelope's bytes; its
    hashing is outside the sources and is left open. *)
Variable HeapData_getPartitionHash : list Z -> Z.

(** [obj[name]] for the property names the facade reads.  Reading a
    property of [null] or [undefined] raises in JavaScript; every such
    read in the facade sits behind a guard except the one in
    [isCompactSerializable], which raises there. *)
Definition getProp (obj : Value) (name : string) : Value :=
  match obj with
  | VObject _ fields => lookupField name fields
  | VHeapData payload =>
      if String.eqb name "getType" then HeapData_getType payload
      else if String.eqb name "toBuffer" then VMethod (VBuffer payload)
      else if String.eqb name "getPartitionHash"
           then VMethod (VNumber (HeapData_getPartitionHash payload))
      else VUndefined
  | _ => VUndefined
  end.

(** [obj.name()] *)
Definition callMethod (obj : Value) (name : string) : Result Value :=
  match getProp obj name with
  | VMethod ret => Ok ret
  | VThrower msg => Throw (RangeError msg)
  | _ => Throw (TypeError (name +:+ " is not a function"))
  end.

(** Modelled from the spec: [Util.getType] is missing.  It is the
    runtime kind name of §4.3 step 6: ["array"], ["buffer"], the name of a
    built-in value class, or the [typeof] name. *)
Definition getType (obj : Value) : string :=
  match obj with
  | VUndefined => "undefined"
  | VNull => "object"
  | VBoolean _ => "boolean"
  | VNumber _ => "number"
  | VBigInt _ => "bigint"
  | VString _ => "string"
  | VBuffer _ => "buffer"
  | VArray _ => "array"
  | VMethod _ | VThrower _ => "function"
  | VObject cls _ =>
      if String.eqb cls "Long" then "long"
      else if String.eqb cls "UUID" then "uuid"
      else if String.eqb cls "Date" then "date"
      else if String.eqb cls "LocalDate" then "localDate"
      else if String.eqb cls "LocalTime" then "localTime"
      else if String.eqb cls "LocalDateTime" then "localDateTime"
      else if String.eqb cls "OffsetDateTime" then "offsetDateTime"
      else if String.eqb cls "BigDecimal" then "bigDecimal"
      else "object"
  | VHeapData _ => "object"
  end.

Definition PartitionStrategy : Type := Value -> Result Value.

Definition defaultPartitionStrategy : PartitionStrategy := fun obj =>
  if nullish obj || negb (truthy (getProp obj "getPartitionHash")) then
    Ok (VNumber 0)
  else
    callMethod obj "getPartitionHash".

Definition isData (object : Value) : bool :=
  match object with
  | VHeapData _ => true
  | _ => false
  end.

(** *** Registry *)

(** [this.registry[id]]; the keys of the registry are numbers, any other
    key finds nothing. *)
Definition findSerializerById (this : SerializationServiceV1) (id : Value) : SerializerRef :=
  match id with
  | VNumber n =>
      match registry this !! n with
      | Some s => SCodec s
      | None => SUndefined
      end
  | _ => SUndefined
  end.

Definition findSerializerByName (this : SerializationServiceV1)
    (name : string) (isArray : bool) : SerializerRef :=
  let convertedName :=
    if String.eqb name "number" then defaultNumberType (serializationConfig this)
    else if String.eqb name "buffer" then "byteArray"
    else name in
  let serializerName := convertedName +:+ (if isArray then "Array" else "") in
  match serializerNameToId this !! serializerName with
  | None => SNull
  | Some serializerId => findSerializerById this (VNumber serializerId)
  end.

Definition registerSerializer (this : SerializationServiceV1)
    (name : string) (serializer : Serializer) : Result SerializationServiceV1 :=
  if match serializerNameToId this !! name with
     | Some i => truthy (VNumber i)
     | None => false
     end
  then Throw (RangeError "Given serializer name is already in the registry.")
  else if match registry this !! id serializer with
          | Some _ => true
          | None => false
          end
  then Throw (RangeError "Given serializer id is already in the registry.")
  else Ok (mkService
             (<[id serializer := serializer]> (registry this))
             (<[name := id serializer]> (serializerNameToId this))
             (compactStreamSerializer this)
             (compactClasses this)
             (portableSerializer this)
             (identifiedSerializer this)
             (serializationConfig this)).

(** *** Resolver *)

Definition isIdentifiedDataSerializable (obj : Value) : bool :=
  truthy (getProp obj "readData") && truthy (getProp obj "writeData")
  && typeof_number (getProp obj "factoryId") && typeof_number (getProp obj "classId").

Definition isPortableSerializable (obj : Value) : bool :=
  truthy (getProp obj "readPortable") && truthy (getProp obj "writePortable")
  && typeof_number (getProp obj "factoryId") && typeof_number (getProp obj "classId").

(** Modelled from the spec: [CompactStreamSerializer.isRegisteredAsCompact]
    is missing.  A value is compact-serializable by nominal registration
    of its constructor (§4.3 step 3). *)
Definition isRegisteredAsCompact (this : SerializationServiceV1) (clazz : string) : bool :=
  bool_decide (clazz ∈ compactClasses this).

Definition isCompactSerializable (this : SerializationServiceV1) (obj : Value) : Result bool :=
  if String.eqb (constructorOf obj) "CompactGenericRecordImpl" then Ok true
  else if nullish obj
  then Throw (TypeError "Cannot read properties of null or undefined (reading 'constructor')")
  else Ok (isRegisteredAsCompact this (constructorOf obj)).

Definition isCustomSerializable (object : Value) : bool :=
  let prop := "hzCustomId" in
  typeof_number (getProp object prop)
  && match getProp object prop with
     | VNumber n => 1 <=? n
     | _ => false
     end.

Definition lookupDefaultSerializer (this : SerializationServiceV1) (obj : Value)
    : Result SerializerRef :=
  compact ← isCompactSerializable this obj;
  if compact : bool then Ok (SCodec (compactStreamSerializer this))
  else if isIdentifiedDataSerializable obj then Ok (SCodec (identifiedSerializer this))
  else if isPortableSerializable obj then Ok (SCodec (portableSerializer this))
  else
    let objectType := getType obj in
    if String.eqb objectType "array" then
      if strictEqNumber (getLength obj) 0
      then Ok (findSerializerByName this "number" true)
      else Ok (findSerializerByName this (getType (getFirst obj)) true)
    else Ok (findSerializerByName this objectType false).

Definition lookupCustomSerializer (this : SerializationServiceV1) (obj : Value) : SerializerRef :=
  if isCustomSerializable obj then findSerializerById this (getProp obj "hzCustomId")
  else SNull.

Definition lookupGlobalSerializer (this : SerializationServiceV1) : SerializerRef :=
  findSerializerByName this "!global" false.

Definition findSerializerFor (this : SerializationServiceV1) (obj : Value)
    : Result SerializerRef :=
  match obj with
  | VUndefined => Throw (RangeError "undefined cannot be serialized.")
  | _ =>
      let serializer := SNull in
      let serializer :=
        match obj with
        | VNull => findSerializerByName this "null" false
        | _ => serializer
        end in
      serializer ← (if isNullRef serializer then lookupDefaultSerializer this obj
                    else Ok serializer);
      let serializer :=
        if isNullRef serializer then lookupCustomSerializer this obj else serializer in
      let serializer :=
        if isNullRef serializer then lookupGlobalSerializer this else serializer in
      let serializer :=
        if isNullRef serializer then findSerializerByName this "!json" false
        else serializer in
      if isNullRef serializer
      then Throw (RangeErrorAbout "There is no suitable serializer for " obj)
      else Ok serializer
  end.

(** *** Facade operations *)

Definition calculatePartitionHash (object : Value) (strategy : PartitionStrategy)
    : Result Value :=
  strategy object.

(** The body of [toData]; [serializedPartitionKey] is the outcome of the
    nested call [this.toData(partitionKey)], consulted only on the branch
    that makes that call. *)
Definition toData_body (this : SerializationServiceV1) (object : Value)
    (partitioningStrategy : PartitionStrategy)
    (serializedPartitionKey : Result Value) : Result Value :=
  if isData object then Ok object
  else
    let dataOutput :=
      new_PositionalObjectDataOutput (isBigEndian (serializationConfig this)) in
    serializer ← findSerializerFor this object;
    dataOutput ←
      (if negb (nullish object) && negb (nullish (getProp object "partitionKey")) then
         serializedPartitionKey ← serializedPartitionKey;
         hash ← calculatePartitionHash serializedPartitionKey partitioningStrategy;
         writeIntBE dataOutput hash
       else
         hash ← calculatePartitionHash object partitioningStrategy;
         writeIntBE dataOutput hash);
    serializerId ← ref_id serializer;
    dataOutput ← writeIntBE dataOutput (VNumber serializerId);
    dataOutput ← ref_write serializer dataOutput object;
    Ok (VHeapData (toBuffer dataOutput)).

(** [toData]: the nested call descends into the [partitionKey] field, so
    the recursion is structural in the value. *)
Fixpoint toData (this : SerializationServiceV1) (object : Value)
    (partitioningStrategy : PartitionStrategy) {struct object} : Result Value :=
  toData_body this object partitioningStrategy
    match object with
    | VObject _ fields =>
        (fix ofKey (fs : list (string * Value)) : Result Value :=
           match fs with
           | [] => Ok VUndefined
           | (k, x) :: rest =>
               if String.eqb k "partitionKey"
               then toData this x defaultPartitionStrategy
               else ofKey rest
           end) fields
    | _ => Ok VUndefined
    end.

Definition toObject (this : SerializationServiceV1) (data : Value) : Result Value :=
  if nullish data then Ok data
  else if negb (truthy (getProp data "getType")) then Ok data
  else
    typeId ← callMethod data "getType";
    match findSerializerById this typeId with
    | SUndefined =>
        typeId ← callMethod data "getType";
        Throw (RangeErrorAbout "There is no suitable deserializer for data with type " typeId)
    | serializer =>
        buffer ← callMethod data "toBuffer";
        let dataInput :=
          new_ObjectDataInput buffer DATA_OFFSET (isBigEndian (serializationConfig this)) in
        fst <$> ref_read serializer dataInput
    end.

Definition writeObject (this : SerializationServiceV1) (out : DataOutput) (object : Value)
    : Result DataOutput :=
  serializer ← findSerializerFor this object;
  serializerId ← ref_id serializer;
  out ← writeInt out (VNumber serializerId);
  ref_write serializer out object.

Definition readObject (this : SerializationServiceV1) (inp : DataInput)
    : Result (Value * DataInput) :=
  '(serializerId, inp) ← readInt inp;
  let serializer := findSerializerById this (VNumber serializerId) in
  ref_read serializer inp.

(** *** Construction *)

(** A run of [this.registerSerializer(name, codec)] statements; the first
    one that throws aborts the rest. *)
Fixpoint registerAll (this : SerializationServiceV1)
    (entries : list (string * Serializer)) : Result SerializationServiceV1 :=
  match entries with
  | [] => Ok this
  | (name, serializer) :: rest =>
      this ← registerSerializer this name serializer;
      registerAll this rest
  end.

Definition registerDefaultSerializers (env : Collaborators)
    (this : SerializationServiceV1) : Result SerializationServiceV1 :=
  this ← registerAll this
    [ ("string", new_default env "StringSerializer");
      ("double", new_default env "DoubleSerializer");
      ("byte", new_default env "ByteSerializer");
      ("boolean", new_default env "BooleanSerializer");
      ("null", new_default env "NullSerializer");
      ("short", new_default env "ShortSerializer");
      ("integer", new_default env "IntegerSerializer");
      ("long", new_default env "LongSerializer");
      ("float", new_default env "FloatSerializer");
      ("char", new_default env "CharSerializer");
      ("date", new_default env "DateSerializer");
      ("localDate", new_default env "LocalDateSerializer");
      ("localTime", new_default env "LocalTimeSerializer");
      ("localDateTime", new_default env "LocalDateTimeSerializer");
      ("offsetDateTime", new_default env "OffsetDateTimeSerializer");
      ("byteArray", new_default env "ByteArraySerializer");
      ("charArray", new_default env "CharArraySerializer");
      ("booleanArray", new_default env "BooleanArraySerializer");
      ("shortArray", new_default env "ShortArraySerializer");
      ("integerArray", new_default env "IntegerArraySerializer");
      ("longArray", new_default env "LongArraySerializer");
      ("doubleArray", new_default env "DoubleArraySerializer");
      ("stringArray", new_default env "StringArraySerializer");
      ("javaClass", new_default env "JavaClassSerializer");
      ("floatArray", new_default env "FloatArraySerializer");
      ("arrayList", new_default env "ArrayListSerializer");
      ("linkedList", new_default env "LinkedListSerializer");
      ("uuid", new_default env "UuidSerializer");
      ("bigDecimal", new_default env "BigDecimalSerializer");
      ("bigint", new_default env "BigIntSerializer");
      ("javaArray", new_default env "JavaArraySerializer");
      ("!compact", compactStreamSerializer this);
      ("identified", identifiedSerializer this);
      ("!portable", portableSerializer this) ];
  match jsonStringDeserializationPolicy (serializationConfig this) with
  | EAGER => registerSerializer this "!json" (new_default env "JsonSerializer")
  | NO_DESERIALIZATION =>
      registerSerializer this "!json" (new_default env "HazelcastJsonValueSerializer")
  end.

Definition createIdentifiedSerializer (env : Collaborators)
    (serializationConfig : SerializationConfigImpl) : Serializer :=
  let factories : gmap Z string := dataSerializableFactories serializationConfig in
  let factories := <[PREDICATE_FACTORY_ID env := "predicateFactory"]> factories in
  let factories :=
    <[RELIABLE_TOPIC_MESSAGE_FACTORY_ID env := "reliableTopicMessageFactory"]> factories in
  let factories := <[CLUSTER_DATA_FACTORY_ID env := "clusterDataFactory"]> factories in
  let factories := <[AGGREGATOR_FACTORY_ID env := "aggregatorFactory"]> factories in
  let factories := <[REST_VALUE_FACTORY_ID env := "restValueFactory"]> factories in
  new_IdentifiedDataSerializableSerializer env factories.

Definition registerCustomSerializers (this : SerializationServiceV1)
    : Result SerializationServiceV1 :=
  let customSerializers := customSerializers (serializationConfig this) in
  registerAll this
    (map (fun customSerializer =>
            ("!custom" +:+ pretty (id customSerializer), customSerializer))
         customSerializers).

(** [compactStreamSerializer.registerSerializer] and [registerSchemaToClass]
    both record a class as compact-serializable. *)
Definition registerClassAsCompact (this : SerializationServiceV1) (clazz : string)
    : SerializationServiceV1 :=
  mkService (registry this) (serializerNameToId this) (compactStreamSerializer this)
    ({[clazz]} ∪ compactClasses this)
    (portableSerializer this) (identifiedSerializer this) (serializationConfig this).

Definition registerCompactSerializers (this : SerializationServiceV1)
    : SerializationServiceV1 :=
  let compactSerializers := compact_serializers (serializationConfig this) in
  fold_left registerClassAsCompact compactSerializers this.

Definition registerGlobalSerializer (this : SerializationServiceV1)
    : Result SerializationServiceV1 :=
  match globalSerializer (serializationConfig this) with
  | None => Ok this
  | Some candidate => registerSerializer this "!global" candidate
  end.

Definition registerSchemaToClass (this : SerializationServiceV1) (clazz : string)
    : SerializationServiceV1 :=
  registerClassAsCompact this clazz.

Definition new_SerializationServiceV1 (env : Collaborators)
    (serializationConfig : SerializationConfigImpl) : Result SerializationServiceV1 :=
  let this :=
    mkService ∅ ∅
      (new_CompactStreamSerializer env)
      ∅
      (new_PortableSerializer env serializationConfig)
      (createIdentifiedSerializer env serializationConfig)
      serializationConfig in
  this ← registerDefaultSerializers env this;
  this ← registerCustomSerializers this;
  let this := registerCompactSerializers this in
  registerGlobalSerializer this.

End Facade.

(** ** A concrete installation

    [DefaultSerializers.ts] and the structured codecs are not among the
    sources.  For statements about one concrete facade, each codec class
    gets the type id it has on the cluster's wire; the null, boolean and
    integer codecs are written out under the contract of §4.1, the others
    refuse to encode, which no dispatch decision depends on. *)

Module Sample.

(** The type ids of this installation: zero for the null codec and
    negative ones for the other built-in codecs, as on the cluster's wire,
    which leaves the ids from 1 on to user codecs ([hzCustomId >= 1]). *)
Definition typeIds : list (string * Z) :=
  [ ("NullSerializer", 0); ("ByteSerializer", -3); ("BooleanSerializer", -4);
    ("CharSerializer", -5); ("ShortSerializer", -6); ("IntegerSerializer", -7);
    ("LongSerializer", -8); ("FloatSerializer", -9); ("DoubleSerializer", -10);
    ("StringSerializer", -11); ("ByteArraySerializer", -12);
    ("BooleanArraySerializer", -13); ("CharArraySerializer", -14);
    ("ShortArraySerializer", -15); ("IntegerArraySerializer", -16);
    ("LongArraySerializer", -17); ("FloatArraySerializer", -18);
    ("DoubleArraySerializer", -19); ("StringArraySerializer", -20);
    ("UuidSerializer", -21); ("JavaClassSerializer", -24); ("DateSerializer", -25);
    ("BigIntSerializer", -26); ("BigDecimalSerializer", -27);
    ("JavaArraySerializer", -28); ("ArrayListSerializer", -29);
    ("LinkedListSerializer", -30); ("LocalDateSerializer", -51);
    ("LocalTimeSerializer", -52); ("LocalDateTimeSerializer", -53);
    ("OffsetDateTimeSerializer", -54); ("JsonSerializer", -130);
    ("HazelcastJsonValueSerializer", -130) ].

Fixpoint typeIdOf (table : list (string * Z)) (cls : string) : Z :=
  match table with
  | [] => -1000
  | (c, i) :: rest => if String.eqb c cls then i else typeIdOf rest cls
  end.

(** A codec known by its id only. *)
Definition refusing (typeId : Z) : Serializer :=
  mkSerializer typeId
    (fun _ _ => Throw (TypeError "this codec's encoding is not part of the development"))
    (fun _ => Throw (TypeError "this codec's encoding is not part of the development")).

(** Modelled from the spec: [NullSerializer] is missing.  Under the
    contract of §4.1 it has an id, writes an empty payload and reads
    [null]. *)
Definition NullSerializer : Serializer :=
  mkSerializer 0 (fun out _ => Ok out) (fun inp => Ok (VNull, inp)).

(** Modelled from the spec: [BooleanSerializer] is missing.  Under the
    contract of §4.1 it appends one byte and reads that byte back. *)
Definition BooleanSerializer : Serializer :=
  mkSerializer (-4)
    (fun out obj =>
       match obj with
       | VBoolean b => Ok (appendBytes out [if b then 1 else 0])
       | _ => Throw (TypeError "not a boolean")
       end)
    (fun inp =>
       match in_buffer inp with
       | VBuffer buf =>
           match drop (in_pos inp) buf with
           | b :: _ =>
               Ok (VBoolean (negb (b =? 0)),
                   mkDataInput (in_buffer inp) (in_pos inp + 1)%nat (in_bigEndian inp))
           | [] => Throw (RangeError "Attempt to access memory outside buffer bounds")
           end
       | _ => Throw (TypeError "The input is not backed by a buffer")
       end).

(** Modelled from the spec: [IntegerSerializer] is missing.  Under the
    contract of §4.1 it appends one [int32] in the configured order and
    reads it back. *)
Definition IntegerSerializer : Serializer :=
  mkSerializer (-7)
    (fun out obj => writeInt out obj)
    (fun inp => '(n, inp) ← readInt inp; Ok (VNumber n, inp)).

(** The codec classes by name, the three structured codecs and the
    built-in factory ids. *)
Definition collaborators : Collaborators :=
  mkCollaborators
    (fun cls =>
       if String.eqb cls "NullSerializer" then NullSerializer
       else if String.eqb cls "BooleanSerializer" then BooleanSerializer
       else if String.eqb cls "IntegerSerializer" then IntegerSerializer
       else refusing (typeIdOf typeIds cls))
    (refusing (-55))
    (fun _ => refusing (-1))
    (fun _ => refusing (-2))
    (-20) (-9) 0 (-29) (-25).

(** A user codec for values tagged [hzCustomId = 10]: the payload is the
    [value] field as an [int32] in the configured order. *)
Definition customSerializer10 : Serializer :=
  mkSerializer 10
    (fun out obj =>
       match obj with
       | VObject _ fields => writeInt out (lookupField "value" fields)
       | _ => Throw (TypeError "not an object")
       end)
    (fun inp =>
       '(n, inp) ← readInt inp;
       Ok (VObject "Object" [("hzCustomId", VNumber 10); ("value", VNumber n)], inp)).

Definition defaultConfig : SerializationConfigImpl :=
  mkConfig "double" true EAGER ∅ [] [] None.

Definition integerConfig : SerializationConfigImpl :=
  mkConfig "integer" true EAGER ∅ [] [] None.

Definition littleEndianConfig : SerializationConfigImpl :=
  mkConfig "integer" false EAGER ∅ [customSerializer10] ["Employee"] None.

(** The facade a successful construction yields, and the empty one when
    construction throws. *)
Definition constructed (cfg : SerializationConfigImpl) : SerializationServiceV1 :=
  match new_SerializationServiceV1 collaborators cfg with
  | Ok this => this
  | Throw _ =>
      mkService ∅ ∅ (refusing (-55)) ∅ (refusing (-1)) (refusing (-2)) cfg
  end.

Definition service : SerializationServiceV1 := constructed defaultConfig.
Definition integerService : SerializationServiceV1 := constructed integerConfig.
Definition littleEndianService : SerializationServiceV1 := constructed littleEndianConfig.

(** Sample values: a custom-tagged object with a partition key, an
    object with both polymorphic shapes, an object that merely carries a
    [getType] method, and an object tagged with an unregistered id. *)
Definition taggedWithKey : Value :=
  VObject "Object"
    [("hzCustomId", VNumber 10); ("value", VNumber 42); ("partitionKey", VBoolean true)].

Definition bothShapes : Value :=
  VObject "Object"
    [("readData", VMethod VUndefined); ("writeData", VMethod VUndefined);
     ("readPortable", VMethod VUndefined); ("writePortable", VMethod VUndefined);
     ("factoryId", VNumber 1); ("classId", VNumber 2)].

Definition looksLikeData : Value :=
  VObject "Object" [("getType", VMethod (VNumber 12345))].

Definition unregisteredTag : Value := VObject "Object" [("hzCustomId", VNumber 5)].

Definition constantStrategy (hash : Z) : PartitionStrategy := fun _ => Ok (VNumber hash).

(** Further sample values: a plain untagged object, an object whose
    partition key carries an unregistered tag, and a strategy that tells
    envelopes from other values. *)
Definition plainObject : Value :=
  VObject "Object" [("abc", VString "abc"); ("five", VNumber 5)].

Definition keyedByUnregisteredTag : Value :=
  VObject "Object" [("partitionKey", unregisteredTag)].

Definition envelopeStrategy : PartitionStrategy := fun v =>
  match v with
  | VHeapData _ => Ok (VNumber 1)
  | _ => Ok (VNumber 2)
  end.

(** A stand-in for the envelope's own hash of its bytes. *)
Definition hashOfBytes (payload : list Z) : Z := 7.

End Sample.

(** ** Properties of the facade *)

Section Properties.

Variable hp : list Z -> Z.

Implicit Types (this : SerializationServiceV1) (obj object data : Value).
Implicit Types (strategy : PartitionStrategy) (s : Serializer).

(** *** Notions used in the statements *)

(** Every codec sits under its own id, and every registered name leads to
    a registered id. *)
Record well_formed this : Prop := {
  wf_registry : forall i s, registry this !! i = Some s -> id s = i;
  wf_names : forall n i, serializerNameToId this !! n = Some i -> is_Some (registry this !! i)
}.

(** [this'] holds everything [this] holds, around the same collaborators. *)
Record extends this this' : Prop := {
  ext_registry : registry this ⊆ registry this';
  ext_names : forall n, is_Some (serializerNameToId this !! n) ->
                        is_Some (serializerNameToId this' !! n);
  ext_compact : compactStreamSerializer this' = compactStreamSerializer this;
  ext_portable : portableSerializer this' = portableSerializer this;
  ext_identified : identifiedSerializer this' = identifiedSerializer this;
  ext_config : serializationConfig this' = serializationConfig this
}.

(** What construction establishes and later registrations keep. *)
Record installed this : Prop := {
  inst_wf : well_formed this;
  inst_compact :
    registry this !! id (compactStreamSerializer this) = Some (compactStreamSerializer this);
  inst_identified :
    registry this !! id (identifiedSerializer this) = Some (identifiedSerializer this);
  inst_portable :
    registry this !! id (portableSerializer this) = Some (portableSerializer this);
  inst_null : is_Some (serializerNameToId this !! "null");
  inst_json : is_Some (serializerNameToId this !! "!json")
}.

(** The codec registered under a name, as the two maps give it. *)
Definition registeredUnder this (name : string) : SerializerRef :=
  match serializerNameToId this !! name with
  | None => SNull
  | Some serializerId => findSerializerById this (VNumber serializerId)
  end.

(** Stages 7 to 10 of the precedence chain, entered with the outcome of
    the stages before. *)
Definition fallbackStages this obj (serializer : SerializerRef) : Result SerializerRef :=
  let serializer :=
    if isNullRef serializer then lookupCustomSerializer hp this obj else serializer in
  let serializer :=
    if isNullRef serializer then lookupGlobalSerializer this else serializer in
  let serializer :=
    if isNullRef serializer then findSerializerByName this "!json" false else serializer in
  if isNullRef serializer
  then Throw (RangeErrorAbout "There is no suitable serializer for " obj)
  else Ok serializer.

(** What the partitioning strategy is applied to: the envelope of the
    partition key when the value carries one, the value itself otherwise. *)
Definition partitionSubject this object : Result Value :=
  if nullish (getProp hp object "partitionKey") then Ok object
  else toData hp this (getProp hp object "partitionKey") (defaultPartitionStrategy hp).

(** The output cursor handed to the codec: both header fields are in
    place, written by [writeIntBE]. *)
Definition headerOutput this (hash typeId : Z) : DataOutput :=
  mkDataOutput (int32BE hash ++ int32BE typeId) (isBigEndian (serializationConfig this)).

(** §4.1, for one value: on a cursor that already holds [header], the
    codec appends a payload and leaves the rest alone, and reading from
    the end of the header gives the value back. *)
Definition honoursContract s (bigEndian : bool) (header : list Z) (v : Value) : Prop :=
  exists (payload : list Z) (rest : DataInput),
    write s (mkDataOutput header bigEndian) v = Ok (mkDataOutput (header ++ payload) bigEndian)
    /\ read s (mkDataInput (VBuffer (header ++ payload)) (length header) bigEndian)
       = Ok (v, rest).

(** *** Notions used for construction *)

(** The facade as the constructor has it before the first registration. *)
Definition initialService (env : Collaborators) (cfg : SerializationConfigImpl)
    : SerializationServiceV1 :=
  mkService ∅ ∅ (new_CompactStreamSerializer env) ∅ (new_PortableSerializer env cfg)
    (createIdentifiedSerializer env cfg) cfg.

(** The JSON fallback codec the configured policy selects. *)
Definition jsonSerializer (env : Collaborators) (cfg : SerializationConfigImpl) : Serializer :=
  match jsonStringDeserializationPolicy cfg with
  | EAGER => new_default env "JsonSerializer"
  | NO_DESERIALIZATION => new_default env "HazelcastJsonValueSerializer"
  end.

(** The registrations of [registerDefaultSerializers], in its order. *)
Definition defaultEntries (env : Collaborators) (cfg : SerializationConfigImpl)
    : list (string * Serializer) :=
  [ ("string", new_default env "StringSerializer");
    ("double", new_default env "DoubleSerializer");
    ("byte", new_default env "ByteSerializer");
    ("boolean", new_default env "BooleanSerializer");
    ("null", new_default env "NullSerializer");
    ("short", new_default env "ShortSerializer");
    ("integer", new_default env "IntegerSerializer");
    ("long", new_default env "LongSerializer");
    ("float", new_default env "FloatSerializer");
    ("char", new_default env "CharSerializer");
    ("date", new_default env "DateSerializer");
    ("localDate", new_default env "LocalDateSerializer");
    ("localTime", new_default env "LocalTimeSerializer");
    ("localDateTime", new_default env "LocalDateTimeSerializer");
    ("offsetDateTime", new_default env "OffsetDateTimeSerializer");
    ("byteArray", new_default env "ByteArraySerializer");
    ("charArray", new_default env "CharArraySerializer");
    ("booleanArray", new_default env "BooleanArraySerializer");
    ("shortArray", new_default env "ShortArraySerializer");
    ("integerArray", new_default env "IntegerArraySerializer");
    ("longArray", new_default env "LongArraySerializer");
    ("doubleArray", new_default env "DoubleArraySerializer");
    ("stringArray", new_default env "StringArraySerializer");
    ("javaClass", new_default env "JavaClassSerializer");
    ("floatArray", new_default env "FloatArraySerializer");
    ("arrayList", new_default env "ArrayListSerializer");
    ("linkedList", new_default env "LinkedListSerializer");
    ("uuid", new_default env "UuidSerializer");
    ("bigDecimal", new_default env "BigDecimalSerializer");
    ("bigint", new_default env "BigIntSerializer");
    ("javaArray", new_default env "JavaArraySerializer");
    ("!compact", new_CompactStreamSerializer env);
    ("identified", createIdentifiedSerializer env cfg);
    ("!portable", new_PortableSerializer env cfg);
    ("!json", jsonSerializer env cfg) ].

(** The registrations of [registerCustomSerializers] and of
    [registerGlobalSerializer]. *)
Definition customName (customId : Z) : string := "!custom" +:+ pretty customId.

Definition customEntries (cfg : SerializationConfigImpl) : list (string * Serializer) :=
  map (fun customSerializer => (customName (id customSerializer), customSerializer))
    (customSerializers cfg).

Definition globalEntries (cfg : SerializationConfigImpl) : list (string * Serializer) :=
  match globalSerializer cfg with
  | None => []
  | Some candidate => [("!global", candidate)]
  end.

(** Everything the constructor registers, in the order it does. *)
Definition allEntries (env : Collaborators) (cfg : SerializationConfigImpl)
    : list (string * Serializer) :=
  defaultEntries env cfg ++ customEntries cfg ++ globalEntries cfg.

Definition entryIds (entries : list (string * Serializer)) : list Z :=
  map (fun entry => id entry.2) entries.

(** The same facade with another set of compact classes. *)
Definition withCompactClasses (classes : gset string) this : SerializationServiceV1 :=
  mkService (registry this) (serializerNameToId this) (compactStreamSerializer this)
    classes (portableSerializer this) (identifiedSerializer this) (serializationConfig this).

(** The classes [registerCompactSerializers] records. *)
Definition compactClassesOf (cfg : SerializationConfigImpl) : gset string :=
  fold_left (fun classes clazz => {[clazz]} ∪ classes) (compact_serializers cfg) ∅.

(** The six values [defaultNumberType] ranges over. *)
Definition validNumberType (numberType : string) : bool :=
  bool_decide (numberType ∈ ["double"; "short"; "integer"; "long"; "float"; "byte"]).

(** The name a value is looked up under once the structural tests have
    declined it: the kind name, or for an array the kind name of the
    first element (["number"] when empty) followed by [Array], with
    ["number"] and ["buffer"] replaced as [findSerializerByName] does. *)
Definition normalisedName (cfg : SerializationConfigImpl) (name : string) : string :=
  if String.eqb name "number" then defaultNumberType cfg
  else if String.eqb name "buffer" then "byteArray"
  else name.

Definition kindLookupName (cfg : SerializationConfigImpl) obj : string :=
  match obj with
  | VArray [] => normalisedName cfg "number" +:+ "Array"
  | VArray (first :: _) => normalisedName cfg (getType first) +:+ "Array"
  | _ => normalisedName cfg (getType obj)
  end.

(** The factory table [createIdentifiedSerializer] hands to the
    identified codec: the configured factories, then the five built-in
    ones assigned over them. *)
Definition mergedFactories (env : Collaborators) (cfg : SerializationConfigImpl)
    : gmap Z string :=
  <[REST_VALUE_FACTORY_ID env := "restValueFactory"]>
    (<[AGGREGATOR_FACTORY_ID env := "aggregatorFactory"]>
       (<[CLUSTER_DATA_FACTORY_ID env := "clusterDataFactory"]>
          (<[RELIABLE_TOPIC_MESSAGE_FACTORY_ID env := "reliableTopicMessageFactory"]>
             (<[PREDICATE_FACTORY_ID env := "predicateFactory"]>
                (dataSerializableFactories cfg))))).

(** *** The wire integers *)

Lemma byteAt_div (n k : Z) : 0 <= k -> byteAt n k = (n / 2 ^ (8 * k)) mod 256.
Proof.
  intros Hk. unfold byteAt.
  rewrite Z.shiftr_div_pow2 by lia.
  change 255 with (Z.ones 8). rewrite Z.land_ones by lia. reflexivity.
Qed.

Lemma isInt32_bounds (n : Z) : isInt32 n = true <-> - 2 ^ 31 <= n < 2 ^ 31.
Proof. unfold isInt32. rewrite andb_true_iff, Z.leb_le, Z.ltb_lt. reflexivity. Qed.

Lemma ofBytesBE_int32BE (n : Z) :
  isInt32 n = true ->
  ofBytesBE (byteAt n 3) (byteAt n 2) (byteAt n 1) (byteAt n 0) = n.
Proof.
  intros Hn%isInt32_bounds. unfold ofBytesBE, toSigned32.
  rewrite !byteAt_div by lia.
  change (2 ^ (8 * 3)) with 16777216. change (2 ^ (8 * 2)) with 65536.
  change (2 ^ (8 * 1)) with 256. change (2 ^ (8 * 0)) with 1.
  change (2 ^ 31) with 2147483648 in *. change (2 ^ 32) with 4294967296.
  rewrite Z.div_1_r.
  case Z.ltb_spec; intros Hlt; Z.div_mod_to_equations; lia.
Qed.

Lemma readInt32BE_at (pre post : list Z) (n : Z) :
  isInt32 n = true ->
  readInt32BE (pre ++ int32BE n ++ post) (length pre) = Some n.
Proof.
  intros Hn. unfold readInt32BE, fourBytesAt.
  rewrite drop_app_length. cbn [int32BE app].
  by rewrite ofBytesBE_int32BE.
Qed.

Lemma readInt32LE_at (pre post : list Z) (n : Z) :
  isInt32 n = true ->
  readInt32LE (pre ++ int32LE n ++ post) (length pre) = Some n.
Proof.
  intros Hn. unfold readInt32LE, fourBytesAt.
  rewrite drop_app_length. cbn [int32LE app].
  by rewrite ofBytesBE_int32BE.
Qed.

(** *** The defining equation of [toData] *)

Lemma getProp_nullish obj name : nullish obj = true -> getProp hp obj name = VUndefined.
Proof. by destruct obj. Qed.

Lemma toData_body_key_unused this object strategy (r1 r2 : Result Value) :
  nullish (getProp hp object "partitionKey") = true ->
  toData_body hp this object strategy r1 = toData_body hp this object strategy r2.
Proof.
  intros Hkey. unfold toData_body. rewrite Hkey, andb_false_r. reflexivity.
Qed.

Lemma toData_key_descent this (fields : list (string * Value)) :
  nullish (lookupField "partitionKey" fields) = false ->
  (fix ofKey (fs : list (string * Value)) : Result Value :=
     match fs with
     | [] => Ok VUndefined
     | (k, x) :: rest =>
         if String.eqb k "partitionKey"
         then toData hp this x (defaultPartitionStrategy hp)
         else ofKey rest
     end) fields
  = toData hp this (lookupField "partitionKey" fields) (defaultPartitionStrategy hp).
Proof.
  induction fields as [|[k x] rest IH]; cbn [lookupField]; [discriminate|].
  destruct (String.eqb k "partitionKey"); [reflexivity | exact IH].
Qed.

(** [toData] in the shape of the source: the nested call is made on the
    value's [partitionKey] with the default strategy. *)
Lemma toData_unfold this object strategy :
  toData hp this object strategy =
  toData_body hp this object strategy
    (toData hp this (getProp hp object "partitionKey") (defaultPartitionStrategy hp)).
Proof.
  destruct object; try (apply toData_body_key_unused; reflexivity).
  cbn [toData getProp].
  destruct (nullish (lookupField "partitionKey" fields)) eqn:Hkey.
  - by apply toData_body_key_unused.
  - by rewrite toData_key_descent.
Qed.

(** *** The error monad *)

Lemma bind_Ok {A B} (m : Result A) (f : A -> Result B) (b : B) :
  m ≫= f = Ok b <-> exists a, m = Ok a /\ f a = Ok b.
Proof.
  destruct m as [a|e]; cbn.
  - split; [eauto | intros (a' & [= <-] & H); exact H].
  - split; [discriminate | intros (a' & [=] & _)].
Qed.

Lemma bind_Ok_l {A B} (m : Result A) (f : A -> Result B) (a : A) :
  m = Ok a -> m ≫= f = f a.
Proof. by intros ->. Qed.

Ltac inv_bind H :=
  repeat match type of H with
         | _ ≫= _ = Ok _ =>
             let a := fresh "a" in
             let Ha := fresh "Ha" in
             apply bind_Ok in H; destruct H as (a & Ha & H)
         end.

(** *** Envelope pass-through of [toData] *)

Lemma toData_isData this object strategy :
  isData object = true -> toData hp this object strategy = Ok object.
Proof. by destruct object. Qed.

Lemma toData_result_isData this object strategy data :
  toData hp this object strategy = Ok data -> isData data = true.
Proof.
  rewrite toData_unfold. unfold toData_body.
  destruct (isData object) eqn:Hd.
  - by intros [= <-].
  - intros H. inv_bind H. by injection H as <-.
Qed.

(** C8. [toData] is idempotent: feeding the outcome of [toData] back into
    [toData], under any strategy, changes nothing; an envelope is returned
    as it is and a failure of the first call stays that failure. *)
Theorem toData_idempotent this object strategy strategy' :
  toData hp this object strategy ≫= (fun data => toData hp this data strategy')
  = toData hp this object strategy.
Proof.
  destruct (toData hp this object strategy) as [data|e] eqn:H; [|reflexivity].
  cbn. apply toData_isData. by eapply toData_result_isData.
Qed.

(** *** The registry and its invariants *)

Lemma extends_refl this : extends this this.
Proof. by split. Qed.

Lemma extends_trans this1 this2 this3 :
  extends this1 this2 -> extends this2 this3 -> extends this1 this3.
Proof.
  intros [] []. split; try congruence.
  - by etrans.
  - auto.
Qed.

(** When [registerSerializer] succeeds, and what it then leaves behind. *)
Lemma registerSerializer_Ok this name s this' :
  registerSerializer this name s = Ok this' <->
  (serializerNameToId this !! name = None \/ serializerNameToId this !! name = Some 0)
  /\ registry this !! id s = None
  /\ this' = mkService (<[id s := s]> (registry this))
               (<[name := id s]> (serializerNameToId this))
               (compactStreamSerializer this) (compactClasses this)
               (portableSerializer this) (identifiedSerializer this)
               (serializationConfig this).
Proof.
  unfold registerSerializer.
  destruct (serializerNameToId this !! name) as [i|] eqn:Hn;
    destruct (registry this !! id s) as [s0|] eqn:Hr; cbn.
  - destruct (Z.eqb_spec i 0); cbn; split; try discriminate;
      intros (_ & [=] & _).
  - destruct (Z.eqb_spec i 0) as [->|Hi]; cbn; split.
    + intros [= <-]. auto.
    + intros (_ & _ & ->). reflexivity.
    + discriminate.
    + intros ([[=]|[= ->]] & _). congruence.
  - split; [discriminate | intros (_ & [=] & _)].
  - split.
    + intros [= <-]. auto.
    + intros (_ & _ & ->). reflexivity.
Qed.

Lemma registerSerializer_extends this name s this' :
  registerSerializer this name s = Ok this' ->
  extends this this'
  /\ registry this' !! id s = Some s
  /\ serializerNameToId this' !! name = Some (id s).
Proof.
  intros (_ & Hfree & ->)%registerSerializer_Ok. cbn. split; [split; cbn|]; try done.
  - by apply insert_subseteq.
  - intros n Hn. destruct (decide (name = n)) as [->|Hne].
    + rewrite lookup_insert_eq. eauto.
    + by rewrite lookup_insert_ne.
  - by rewrite !lookup_insert_eq.
Qed.

Lemma registerSerializer_well_formed this name s this' :
  registerSerializer this name s = Ok this' -> well_formed this -> well_formed this'.
Proof.
  intros (_ & Hfree & ->)%registerSerializer_Ok [Hreg Hnames]. split; cbn.
  - intros i s0. destruct (decide (id s = i)) as [<-|Hne].
    + rewrite lookup_insert_eq. by intros [= <-].
    + rewrite lookup_insert_ne by done. apply Hreg.
  - intros n i. destruct (decide (name = n)) as [->|Hne].
    + rewrite lookup_insert_eq. intros [= <-]. rewrite lookup_insert_eq. eauto.
    + rewrite lookup_insert_ne by done. intros Hn%Hnames.
      destruct (decide (id s = i)) as [<-|Hne'].
      * rewrite lookup_insert_eq. eauto.
      * by rewrite lookup_insert_ne.
Qed.

Lemma registerAll_inv this entries this' :
  registerAll this entries = Ok this' ->
  well_formed this ->
  well_formed this' /\ extends this this'
  /\ forall name s, (name, s) ∈ entries ->
       registry this' !! id s = Some s /\ is_Some (serializerNameToId this' !! name).
Proof.
  revert this. induction entries as [|[name s] rest IH]; intros this; cbn.
  - intros [= <-] Hwf. split; [done|]. split; [apply extends_refl|].
    intros ? ? []%elem_of_nil.
  - intros H Hwf. inv_bind H.
    pose proof (registerSerializer_well_formed _ _ _ _ Ha Hwf) as Hwf1.
    destruct (registerSerializer_extends _ _ _ _ Ha) as (Hext1 & Hid & Hname).
    destruct (IH _ H Hwf1) as (Hwf' & Hext & Hrest).
    split; [done|]. split; [by eapply extends_trans|].
    intros name0 s0 [[= -> ->]|Hin]%elem_of_cons; [|by apply Hrest].
    split.
    + eapply lookup_weaken; [exact Hid | apply Hext].
    + apply Hext. rewrite Hname. eauto.
Qed.

Lemma installed_extends this this' :
  installed this -> extends this this' -> well_formed this' -> installed this'.
Proof.
  intros [] [Hreg Hnames Hc Hp Hi _] Hwf. split; try done.
  - rewrite Hc. by eapply lookup_weaken.
  - rewrite Hi. by eapply lookup_weaken.
  - rewrite Hp. by eapply lookup_weaken.
  - by apply Hnames.
  - by apply Hnames.
Qed.

Lemma registerClassAsCompact_installed this clazz :
  installed this -> installed (registerClassAsCompact this clazz).
Proof. intros [[] ? ? ? ? ?]. by repeat split. Qed.

Lemma registerCompactSerializers_installed this :
  installed this -> installed (registerCompactSerializers this).
Proof.
  unfold registerCompactSerializers.
  generalize (compact_serializers (serializationConfig this)) as classes.
  intros classes. revert this.
  induction classes as [|c classes IH]; intros this Hinst; cbn; [done|].
  by apply IH, registerClassAsCompact_installed.
Qed.

Lemma registerCompactSerializers_config this :
  serializationConfig (registerCompactSerializers this) = serializationConfig this.
Proof.
  unfold registerCompactSerializers.
  generalize (compact_serializers (serializationConfig this)) as classes.
  intros classes. revert this.
  induction classes as [|c classes IH]; intros this; cbn; [done|].
  by rewrite IH.
Qed.

Lemma registerDefaultSerializers_installed env this this' :
  registerDefaultSerializers env this = Ok this' ->
  well_formed this ->
  installed this' /\ extends this this'.
Proof.
  unfold registerDefaultSerializers. intros H Hwf.
  destruct (proj1 (bind_Ok _ _ _) H) as (this1 & Hall & Hjson). clear H.
  destruct (registerAll_inv _ _ _ Hall Hwf) as (Hwf1 & Hext1 & Hin).
  assert (exists json, registerSerializer this1 "!json" json = Ok this') as [json Hj].
  { destruct (jsonStringDeserializationPolicy _); eauto. }
  clear Hjson.
  pose proof (registerSerializer_well_formed _ _ _ _ Hj Hwf1) as Hwf'.
  destruct (registerSerializer_extends _ _ _ _ Hj) as (Hext & _ & Hname).
  assert (installed this1 -> installed this') as Hstep.
  { intros Hi. by eapply installed_extends. }
  split; [|by eapply extends_trans].
  assert (forall name s, (name, s) ∈ [ ("null", new_default env "NullSerializer");
            ("!compact", compactStreamSerializer this);
            ("identified", identifiedSerializer this);
            ("!portable", portableSerializer this) ] ->
          registry this1 !! id s = Some s /\ is_Some (serializerNameToId this1 !! name))
    as Hfour.
  { intros name s Hmem. apply Hin.
    repeat (apply elem_of_cons in Hmem as [[= -> ->]|Hmem]);
      [| | | |by apply elem_of_nil in Hmem].
    all: repeat constructor. }
  destruct Hext1 as [_ _ Hc Hp Hi _].
  split; try done.
  - rewrite (ext_compact _ _ Hext), Hc.
    eapply lookup_weaken; [|apply Hext].
    apply (Hfour "!compact" (compactStreamSerializer this)). repeat constructor.
  - rewrite (ext_identified _ _ Hext), Hi.
    eapply lookup_weaken; [|apply Hext].
    apply (Hfour "identified" (identifiedSerializer this)). repeat constructor.
  - rewrite (ext_portable _ _ Hext), Hp.
    eapply lookup_weaken; [|apply Hext].
    apply (Hfour "!portable" (portableSerializer this)). repeat constructor.
  - apply Hext. apply (Hfour "null" (new_default env "NullSerializer")).
    repeat constructor.
Qed.

Lemma construction_installed env cfg this :
  new_SerializationServiceV1 env cfg = Ok this ->
  installed this /\ serializationConfig this = cfg.
Proof.
  unfold new_SerializationServiceV1. intros H.
  apply bind_Ok in H. destruct H as (this1 & Hdefault & H).
  apply bind_Ok in H. destruct H as (this2 & Hcustom & Hglobal).
  apply registerDefaultSerializers_installed in Hdefault as [Hinst1 Hext1];
    [|split; cbn; intros ? ?; by rewrite lookup_empty].
  destruct (registerAll_inv _ _ _ Hcustom (inst_wf _ Hinst1)) as (Hwf2 & Hext2 & _).
  pose proof (installed_extends _ _ Hinst1 Hext2 Hwf2) as Hinst2.
  apply registerCompactSerializers_installed in Hinst2 as Hinst3.
  assert (serializationConfig (registerCompactSerializers this2) = cfg) as Hcfg.
  { rewrite registerCompactSerializers_config, (ext_config _ _ Hext2).
    by rewrite (ext_config _ _ Hext1). }
  unfold registerGlobalSerializer in Hglobal.
  destruct (globalSerializer _) as [candidate|].
  - pose proof (registerSerializer_well_formed _ _ _ _ Hglobal (inst_wf _ Hinst3)) as Hwf.
    destruct (registerSerializer_extends _ _ _ _ Hglobal) as (Hext & _ & _).
    split; [by eapply installed_extends|].
    by rewrite (ext_config _ _ Hext).
  - by injection Hglobal as <-.
Qed.

(** *** Lookups *)

Lemma append_empty_r (a : string) : a +:+ "" = a.
Proof.
  induction a as [|c a IH]; [done|].
  unfold String.append; fold String.append. by rewrite IH.
Qed.

Lemma findSerializerByName_number this (isArray : bool) :
  findSerializerByName this "number" isArray
  = registeredUnder this (defaultNumberType (serializationConfig this)
                          +:+ (if isArray then "Array" else "")).
Proof. reflexivity. Qed.

Lemma findSerializerByName_buffer this (isArray : bool) :
  findSerializerByName this "buffer" isArray
  = registeredUnder this ("byteArray" +:+ (if isArray then "Array" else "")).
Proof. reflexivity. Qed.

Lemma findSerializerByName_other this (name : string) (isArray : bool) :
  name <> "number" -> name <> "buffer" ->
  findSerializerByName this name isArray
  = registeredUnder this (name +:+ (if isArray then "Array" else "")).
Proof.
  intros H1%String.eqb_neq H2%String.eqb_neq.
  unfold findSerializerByName. by rewrite H1, H2.
Qed.

Lemma findSerializerById_registered this (key : Value) s :
  well_formed this ->
  findSerializerById this key = SCodec s -> registry this !! id s = Some s.
Proof.
  intros [Hreg _]. unfold findSerializerById.
  destruct key; try discriminate.
  destruct (registry this !! n) as [s0|] eqn:Hn; [|discriminate].
  intros [= ->]. by rewrite (Hreg _ _ Hn).
Qed.

Lemma findSerializerById_not_null this (key : Value) :
  findSerializerById this key <> SNull.
Proof.
  unfold findSerializerById. destruct key; try discriminate.
  by destruct (registry this !! n).
Qed.

Lemma registeredUnder_cases this (name : string) :
  well_formed this ->
  registeredUnder this name = SNull
  \/ exists s, registeredUnder this name = SCodec s /\ registry this !! id s = Some s.
Proof.
  intros Hwf. unfold registeredUnder.
  destruct (serializerNameToId this !! name) as [i|] eqn:Hn; [|by left].
  destruct (wf_names _ Hwf _ _ Hn) as [s Hs]. right. exists s.
  cbn. rewrite Hs. split; [done|]. by rewrite (wf_registry _ Hwf _ _ Hs).
Qed.

Lemma findSerializerByName_registeredUnder this (name : string) (isArray : bool) :
  exists name', findSerializerByName this name isArray = registeredUnder this name'.
Proof. unfold findSerializerByName. eauto. Qed.

Lemma findSerializerByName_cases this (name : string) (isArray : bool) :
  well_formed this ->
  findSerializerByName this name isArray = SNull
  \/ exists s, findSerializerByName this name isArray = SCodec s
               /\ registry this !! id s = Some s.
Proof.
  intros Hwf. destruct (findSerializerByName_registeredUnder this name isArray) as [n ->].
  by apply registeredUnder_cases.
Qed.

Lemma registeredUnder_is_Some this (name : string) :
  well_formed this -> is_Some (serializerNameToId this !! name) ->
  exists s, registeredUnder this name = SCodec s.
Proof.
  intros Hwf [i Hi]. unfold registeredUnder. rewrite Hi.
  destruct (wf_names _ Hwf _ _ Hi) as [s Hs]. exists s. cbn. by rewrite Hs.
Qed.

(** *** The resolver, stage by stage *)

Lemma findSerializerFor_null this :
  findSerializerFor hp this VNull =
  (serializer ← (if isNullRef (findSerializerByName this "null" false)
                 then lookupDefaultSerializer hp this VNull
                 else Ok (findSerializerByName this "null" false));
   fallbackStages this VNull serializer).
Proof. reflexivity. Qed.

Lemma findSerializerFor_value this obj :
  nullish obj = false ->
  findSerializerFor hp this obj =
  (serializer ← lookupDefaultSerializer hp this obj; fallbackStages this obj serializer).
Proof. by destruct obj. Qed.

Lemma fallbackStages_codec this obj s :
  fallbackStages this obj (SCodec s) = Ok (SCodec s).
Proof. reflexivity. Qed.

Lemma isCompactSerializable_Ok this obj (b : bool) :
  isCompactSerializable this obj = Ok b -> nullish obj = false.
Proof. by destruct obj. Qed.

Lemma lookupDefaultSerializer_registered this obj s :
  installed this ->
  lookupDefaultSerializer hp this obj = Ok (SCodec s) ->
  registry this !! id s = Some s.
Proof.
  intros Hinst. unfold lookupDefaultSerializer. intros H.
  apply bind_Ok in H as ([] & _ & H).
  { injection H as <-. apply Hinst. }
  destruct (isIdentifiedDataSerializable hp obj).
  { injection H as <-. apply Hinst. }
  destruct (isPortableSerializable hp obj).
  { injection H as <-. apply Hinst. }
  assert (exists name isArray, findSerializerByName this name isArray = SCodec s)
    as (name & isArray & Hs).
  { destruct (String.eqb _ "array"); [destruct (strictEqNumber _ 0)|];
      injection H as H; eauto. }
  destruct (findSerializerByName_cases this name isArray (inst_wf _ Hinst))
    as [Hnull|(s' & Hs' & Hreg)]; congruence.
Qed.

Lemma fallbackStages_registered this obj (r : SerializerRef) s :
  installed this ->
  (forall s0, r = SCodec s0 -> registry this !! id s0 = Some s0) ->
  fallbackStages this obj r = Ok (SCodec s) ->
  registry this !! id s = Some s.
Proof.
  intros Hinst Hr. unfold fallbackStages.
  destruct r as [| |s0]; cbn [isNullRef].
  - discriminate.
  - unfold lookupCustomSerializer, lookupGlobalSerializer.
    destruct (isCustomSerializable hp obj).
    + destruct (findSerializerById this _) as [| |s1] eqn:Hid; cbn [isNullRef].
      * discriminate.
      * by apply findSerializerById_not_null in Hid.
      * intros [= <-]. eapply findSerializerById_registered; [apply Hinst | exact Hid].
    + cbn [isNullRef].
      destruct (findSerializerByName_cases this "!global" false (inst_wf _ Hinst))
        as [->|(s1 & -> & Hreg)]; cbn [isNullRef].
      * destruct (findSerializerByName_cases this "!json" false (inst_wf _ Hinst))
          as [->|(s2 & -> & Hreg)]; cbn [isNullRef]; [discriminate|].
        by intros [= <-].
      * by intros [= <-].
  - intros [= <-]. by apply Hr.
Qed.

(** Whatever codec the resolver of a constructed facade selects is the one
    the registry holds under that codec's id. *)
Lemma findSerializerFor_registered this obj s :
  installed this ->
  findSerializerFor hp this obj = Ok (SCodec s) ->
  registry this !! id s = Some s.
Proof.
  intros Hinst. destruct (nullish obj) eqn:Hnull.
  - destruct obj; try discriminate.
    rewrite findSerializerFor_null.
    destruct (findSerializerByName_cases this "null" false (inst_wf _ Hinst))
      as [Hn|(s1 & Hn & Hreg)]; rewrite Hn; cbn [isNullRef].
    + intros H. apply bind_Ok in H as (r & Hr & H). discriminate Hr.
    + cbn. by intros [= <-].
  - rewrite findSerializerFor_value by done. intros H.
    apply bind_Ok in H as (r & Hr & H).
    eapply fallbackStages_registered; [done| |exact H].
    intros s0 ->. by eapply lookupDefaultSerializer_registered.
Qed.

(** *** Precedence of the structural codecs *)

(** C4. A value that is compact-registered, or has the shape of an
    identified-data-serializable or of a portable, resolves to the
    structural codec of the first of these three tests it passes, in that
    order, and to nothing else: the kind-name classification, the custom,
    global and JSON stages are never consulted for it. *)
Theorem structural_codecs_take_precedence this obj (compact : bool) :
  isCompactSerializable this obj = Ok compact ->
  compact || isIdentifiedDataSerializable hp obj || isPortableSerializable hp obj = true ->
  findSerializerFor hp this obj =
  Ok (SCodec (if compact then compactStreamSerializer this
              else if isIdentifiedDataSerializable hp obj then identifiedSerializer this
              else portableSerializer this)).
Proof.
  intros Hcompact Hshape.
  rewrite findSerializerFor_value by (by eapply isCompactSerializable_Ok).
  unfold lookupDefaultSerializer. rewrite Hcompact. cbn.
  destruct compact; [reflexivity|].
  destruct (isIdentifiedDataSerializable hp obj); [reflexivity|].
  destruct (isPortableSerializable hp obj); [reflexivity | discriminate].
Qed.

(** *** Classification by runtime kind *)

Lemma lookupDefaultSerializer_array this (elems : list Value) :
  isRegisteredAsCompact this "Array" = false ->
  lookupDefaultSerializer hp this (VArray elems) =
  Ok (match elems with
      | [] => findSerializerByName this "number" true
      | first :: _ => findSerializerByName this (getType first) true
      end).
Proof.
  intros Harray. unfold lookupDefaultSerializer, isCompactSerializable.
  cbn. rewrite Harray. by destruct elems.
Qed.

(** C5. Classified by runtime kind, an empty array takes the codec
    registered under the configured default number type followed by
    [Array], and a non-empty array the codec looked up, as an array, under
    the kind name of its first element; a lookup under any kind name
    appends [Array] for arrays, after ["number"] has been replaced by the
    configured default number type and ["buffer"] by ["byteArray"].  A
    codec found this way is the one the resolver returns. *)
Theorem array_and_name_lookup this :
  isRegisteredAsCompact this "Array" = false ->
  lookupDefaultSerializer hp this (VArray []) =
    Ok (registeredUnder this (defaultNumberType (serializationConfig this) +:+ "Array"))
  /\ (forall first rest,
        lookupDefaultSerializer hp this (VArray (first :: rest)) =
        Ok (findSerializerByName this (getType first) true))
  /\ (forall name, name <> "number" -> name <> "buffer" ->
        findSerializerByName this name true = registeredUnder this (name +:+ "Array"))
  /\ findSerializerByName this "number" false =
       registeredUnder this (defaultNumberType (serializationConfig this))
  /\ findSerializerByName this "buffer" false = registeredUnder this "byteArray"
  /\ (forall elems s,
        lookupDefaultSerializer hp this (VArray elems) = Ok (SCodec s) ->
        findSerializerFor hp this (VArray elems) = Ok (SCodec s)).
Proof.
  intros Harray. repeat split.
  - by rewrite lookupDefaultSerializer_array.
  - intros first rest. by rewrite lookupDefaultSerializer_array.
  - intros name H1 H2. by rewrite findSerializerByName_other.
  - by rewrite findSerializerByName_number, append_empty_r.
  - intros elems s Hs. rewrite findSerializerFor_value by done. by rewrite Hs.
Qed.

(** *** Totality of the resolver, the custom tag apart *)

Lemma lookupDefaultSerializer_cases this obj :
  installed this -> nullish obj = false ->
  lookupDefaultSerializer hp this obj = Ok SNull
  \/ exists s, lookupDefaultSerializer hp this obj = Ok (SCodec s).
Proof.
  intros Hinst Hobj. unfold lookupDefaultSerializer, isCompactSerializable.
  rewrite Hobj.
  destruct (String.eqb _ "CompactGenericRecordImpl"); cbn; [eauto|].
  destruct (isRegisteredAsCompact this _); [eauto|].
  destruct (isIdentifiedDataSerializable hp obj); [eauto|].
  destruct (isPortableSerializable hp obj); [eauto|].
  assert (forall name isArray,
            Ok (findSerializerByName this name isArray) = Ok SNull
            \/ exists s, Ok (findSerializerByName this name isArray)
                         = Ok (A:=SerializerRef) (SCodec s)) as Hname.
  { intros name isArray.
    destruct (findSerializerByName_cases this name isArray (inst_wf _ Hinst))
      as [->|(s & -> & _)]; eauto. }
  destruct (String.eqb _ "array"); [destruct (strictEqNumber _ 0)|]; apply Hname.
Qed.

(** On a constructed facade every value other than [undefined] that does
    not reach the custom stage with a tag gets a codec: the JSON fallback
    is registered and closes the chain. *)
Lemma findSerializerFor_total_untagged this obj :
  installed this -> obj <> VUndefined -> isCustomSerializable hp obj = false ->
  exists s, findSerializerFor hp this obj = Ok (SCodec s).
Proof.
  intros Hinst Hobj Htag.
  assert (exists s, fallbackStages this obj SNull = Ok (SCodec s)) as Hfallback.
  { unfold fallbackStages, lookupCustomSerializer, lookupGlobalSerializer.
    rewrite Htag. cbn [isNullRef].
    destruct (findSerializerByName_cases this "!global" false (inst_wf _ Hinst))
      as [->|(s1 & -> & _)]; cbn [isNullRef]; [|eauto].
    destruct (registeredUnder_is_Some this "!json" (inst_wf _ Hinst) (inst_json _ Hinst))
      as [s Hs].
    rewrite (findSerializerByName_other this "!json" false) by done.
    change ("!json" +:+ "") with "!json". rewrite Hs. cbn. eauto. }
  destruct (nullish obj) eqn:Hnull.
  - destruct obj; try done.
    destruct (registeredUnder_is_Some this "null" (inst_wf _ Hinst) (inst_null _ Hinst))
      as [s Hs].
    exists s. rewrite findSerializerFor_null.
    rewrite (findSerializerByName_other this "null" false) by done.
    change ("null" +:+ "") with "null". by rewrite Hs.
  - rewrite findSerializerFor_value by done.
    destruct (lookupDefaultSerializer_cases this obj Hinst Hnull) as [->|[s ->]]; cbn.
    + exact Hfallback.
    + eauto.
Qed.

(** *** The envelope written by [toData] *)

Lemma toData_envelope this object strategy subject (h : Z) s :
  isData object = false ->
  findSerializerFor hp this object = Ok (SCodec s) ->
  partitionSubject this object = Ok subject ->
  strategy subject = Ok (VNumber h) ->
  isInt32 h = true ->
  isInt32 (id s) = true ->
  toData hp this object strategy =
  (dataOutput ← write s (headerOutput this h (id s)) object;
   Ok (VHeapData (toBuffer dataOutput))).
Proof.
  intros Hdata Hfind Hsubject Hhash Hh Hid.
  rewrite toData_unfold. unfold toData_body. rewrite Hdata, Hfind. cbn [mbind Result_bind].
  unfold partitionSubject in Hsubject.
  assert ((if negb (nullish object) && negb (nullish (getProp hp object "partitionKey"))
           then
             serializedPartitionKey ←
               toData hp this (getProp hp object "partitionKey") (defaultPartitionStrategy hp);
             hash ← calculatePartitionHash serializedPartitionKey strategy;
             writeIntBE
               (new_PositionalObjectDataOutput (isBigEndian (serializationConfig this))) hash
           else
             hash ← calculatePartitionHash object strategy;
             writeIntBE
               (new_PositionalObjectDataOutput (isBigEndian (serializationConfig this))) hash)
          = Ok (mkDataOutput (int32BE h) (isBigEndian (serializationConfig this)))) as ->.
  { destruct (nullish (getProp hp object "partitionKey")) eqn:Hkey.
    - rewrite andb_false_r. injection Hsubject as <-.
      unfold calculatePartitionHash. rewrite Hhash. cbn. by rewrite Hh.
    - destruct (nullish object) eqn:Hobj.
      { by rewrite getProp_nullish in Hkey. }
      cbn [negb andb]. rewrite Hsubject. cbn.
      unfold calculatePartitionHash. rewrite Hhash. cbn. by rewrite Hh. }
  cbn. rewrite Hid. reflexivity.
Qed.

Lemma toObject_envelope this (h t : Z) (payload : list Z) s :
  isInt32 t = true ->
  registry this !! t = Some s ->
  toObject hp this (VHeapData (int32BE h ++ int32BE t ++ payload)) =
  fst <$> read s (new_ObjectDataInput (VBuffer (int32BE h ++ int32BE t ++ payload))
                    DATA_OFFSET (isBigEndian (serializationConfig this))).
Proof.
  intros Ht Hs. unfold toObject, callMethod.
  cbn [nullish getProp String.eqb Ascii.eqb Bool.eqb].
  unfold HeapData_getType.
  change TYPE_OFFSET with (length (int32BE h)).
  rewrite (readInt32BE_at (int32BE h) payload t Ht).
  cbn [truthy negb mbind Result_bind findSerializerById]. rewrite Hs. reflexivity.
Qed.

(** C1. Round trip.  On a constructed facade, take any value that is not
    already an envelope, that the resolver gives a codec, whose partition
    hash is a 32-bit integer, and whose codec honours the codec contract
    of §4.1 on it.  Then [toData] returns an envelope and [toObject] of
    that envelope returns the value again. *)
Theorem toObject_toData_roundtrip env cfg this v strategy subject (h : Z) s :
  new_SerializationServiceV1 env cfg = Ok this ->
  isData v = false ->
  findSerializerFor hp this v = Ok (SCodec s) ->
  partitionSubject this v = Ok subject ->
  strategy subject = Ok (VNumber h) ->
  isInt32 h = true ->
  isInt32 (id s) = true ->
  honoursContract s (isBigEndian cfg) (int32BE h ++ int32BE (id s)) v ->
  exists data,
    toData hp this v strategy = Ok data /\ toObject hp this data = Ok v.
Proof.
  intros [Hinst Hcfg]%construction_installed Hdata Hfind Hsubject Hhash Hh Hid
    (payload & rest & Hwrite & Hread).
  exists (VHeapData (int32BE h ++ int32BE (id s) ++ payload)). split.
  - rewrite (toData_envelope this v strategy subject h s) by done.
    unfold headerOutput. rewrite Hcfg, Hwrite. cbn. unfold toBuffer. cbn.
    reflexivity.
  - rewrite (toObject_envelope this h (id s) payload s Hid)
      by (by eapply findSerializerFor_registered).
    rewrite Hcfg. unfold new_ObjectDataInput.
    change DATA_OFFSET with (length (int32BE h ++ int32BE (id s))).
    change (int32BE h ++ int32BE (id s) ++ payload)
      with ((int32BE h ++ int32BE (id s)) ++ payload).
    by rewrite Hread.
Qed.

(** *** Byte order of the header *)

Lemma header_envelope_bytes this object strategy subject (h : Z) s (payload : list Z) :
  isData object = false ->
  findSerializerFor hp this object = Ok (SCodec s) ->
  partitionSubject this object = Ok subject ->
  strategy subject = Ok (VNumber h) ->
  isInt32 h = true ->
  isInt32 (id s) = true ->
  write s (headerOutput this h (id s)) object
    = Ok (appendBytes (headerOutput this h (id s)) payload) ->
  toData hp this object strategy = Ok (VHeapData (int32BE h ++ int32BE (id s) ++ payload)).
Proof.
  intros Hdata Hfind Hsubject Hhash Hh Hid Hwrite.
  rewrite (toData_envelope this object strategy subject h s) by done.
  rewrite Hwrite. cbn. unfold toBuffer, headerOutput. cbn. reflexivity.
Qed.

(** C2 (amended). Whatever [isBigEndian] is, [toData] writes the partition
    hash and the type id with [writeIntBE]: the envelope starts with the
    two big-endian [int32] fields.  The configured order reaches the
    payload only, through the cursor handed to the codec, and the type id
    that [writeObject] writes in front of a nested value. *)
Theorem header_always_big_endian this object strategy subject (h : Z) s (payload : list Z) :
  isData object = false ->
  findSerializerFor hp this object = Ok (SCodec s) ->
  partitionSubject this object = Ok subject ->
  strategy subject = Ok (VNumber h) ->
  isInt32 h = true ->
  isInt32 (id s) = true ->
  write s (headerOutput this h (id s)) object
    = Ok (appendBytes (headerOutput this h (id s)) payload) ->
  toData hp this object strategy = Ok (VHeapData (int32BE h ++ int32BE (id s) ++ payload))
  /\ out_bigEndian (headerOutput this h (id s)) = isBigEndian (serializationConfig this)
  /\ forall out,
       writeObject hp this out object =
       write s (appendBytes out (if out_bigEndian out then int32BE (id s) else int32LE (id s)))
         object.
Proof.
  intros Hdata Hfind Hsubject Hhash Hh Hid Hwrite. repeat split.
  - by eapply header_envelope_bytes.
  - intros out. unfold writeObject, writeInt. rewrite Hfind. cbn. by rewrite Hid.
Qed.

(** *** The partition hash *)

Lemma defaultPartitionStrategy_zero obj :
  truthy (getProp hp obj "getPartitionHash") = false ->
  defaultPartitionStrategy hp obj = Ok (VNumber 0).
Proof.
  intros H. unfold defaultPartitionStrategy. rewrite H. cbn. by rewrite orb_true_r.
Qed.

Lemma defaultPartitionStrategy_accessor (cls : string) (fields : list (string * Value))
    (result : Value) :
  lookupField "getPartitionHash" fields = VMethod result ->
  defaultPartitionStrategy hp (VObject cls fields) = Ok result.
Proof.
  intros H. unfold defaultPartitionStrategy, callMethod. cbn. by rewrite H.
Qed.

(** C6. The partition hash in the header of [toData]'s envelope is the
    strategy's result on the partition subject: the envelope obtained by
    serializing the [partitionKey] (with the default strategy) when the
    value has one that is not null, the value itself otherwise.  The
    default strategy gives [0] to a value without a [getPartitionHash]
    accessor and the accessor's own result to a value with one. *)
Theorem partition_hash_in_header this object strategy subject (h : Z) s (payload : list Z) :
  isData object = false ->
  findSerializerFor hp this object = Ok (SCodec s) ->
  partitionSubject this object = Ok subject ->
  strategy subject = Ok (VNumber h) ->
  isInt32 h = true ->
  isInt32 (id s) = true ->
  write s (headerOutput this h (id s)) object
    = Ok (appendBytes (headerOutput this h (id s)) payload) ->
  (exists envelope,
     toData hp this object strategy = Ok (VHeapData envelope)
     /\ readInt32BE envelope PARTITION_HASH_OFFSET = Some h)
  /\ (nullish (getProp hp object "partitionKey") = true -> subject = object)
  /\ (nullish (getProp hp object "partitionKey") = false ->
      isData subject = true
      /\ toData hp this (getProp hp object "partitionKey") (defaultPartitionStrategy hp)
         = Ok subject)
  /\ (forall v, truthy (getProp hp v "getPartitionHash") = false ->
                defaultPartitionStrategy hp v = Ok (VNumber 0))
  /\ (forall cls fields result,
        lookupField "getPartitionHash" fields = VMethod result ->
        defaultPartitionStrategy hp (VObject cls fields) = Ok result).
Proof.
  intros Hdata Hfind Hsubject Hhash Hh Hid Hwrite. repeat split.
  - exists (int32BE h ++ int32BE (id s) ++ payload). split.
    + by eapply header_envelope_bytes.
    + apply (readInt32BE_at [] (int32BE (id s) ++ payload) h Hh).
  - intros Hkey. unfold partitionSubject in Hsubject. rewrite Hkey in Hsubject.
    by injection Hsubject.
  - unfold partitionSubject in Hsubject. rewrite H in Hsubject.
    by eapply toData_result_isData.
  - unfold partitionSubject in Hsubject. by rewrite H in Hsubject.
  - apply defaultPartitionStrategy_zero.
  - apply defaultPartitionStrategy_accessor.
Qed.

(** *** The custom stage *)

(** A tag whose id is registered selects that codec. *)
Lemma findSerializerFor_registered_tag this obj (tag : Z) s :
  nullish obj = false ->
  lookupDefaultSerializer hp this obj = Ok SNull ->
  getProp hp obj "hzCustomId" = VNumber tag -> 1 <= tag ->
  registry this !! tag = Some s ->
  findSerializerFor hp this obj = Ok (SCodec s).
Proof.
  intros Hobj Hdefault Htag Hge Hreg.
  rewrite findSerializerFor_value, Hdefault by done. cbn.
  unfold fallbackStages, lookupCustomSerializer, isCustomSerializable.
  rewrite Htag. cbn. rewrite Hreg.
  destruct (Z.leb_spec 1 tag); [reflexivity | lia].
Qed.

(** A tag whose id is not registered makes the registry lookup answer
    [undefined]; the later stages test for [null] only, so [undefined] is
    what the resolver returns. *)
Lemma findSerializerFor_unregistered_tag this obj (tag : Z) :
  nullish obj = false ->
  lookupDefaultSerializer hp this obj = Ok SNull ->
  getProp hp obj "hzCustomId" = VNumber tag -> 1 <= tag ->
  registry this !! tag = None ->
  findSerializerFor hp this obj = Ok SUndefined.
Proof.
  intros Hobj Hdefault Htag Hge Hreg.
  rewrite findSerializerFor_value, Hdefault by done. cbn.
  unfold fallbackStages, lookupCustomSerializer, isCustomSerializable.
  rewrite Htag. cbn. rewrite Hreg.
  destruct (Z.leb_spec 1 tag); [reflexivity | lia].
Qed.

(** *** Reading by id *)

(** [toObject] on an envelope whose type id is registered hands the
    payload to that codec; on one whose type id is unknown it raises the
    error that names the id. *)
Lemma toObject_unknown_type this (h t : Z) (payload : list Z) :
  isInt32 t = true ->
  registry this !! t = None ->
  toObject hp this (VHeapData (int32BE h ++ int32BE t ++ payload)) =
  Throw (RangeErrorAbout "There is no suitable deserializer for data with type " (VNumber t)).
Proof.
  intros Ht Hs. unfold toObject, callMethod.
  cbn [nullish getProp String.eqb Ascii.eqb Bool.eqb].
  unfold HeapData_getType.
  change TYPE_OFFSET with (length (int32BE h)).
  rewrite (readInt32BE_at (int32BE h) payload t Ht).
  cbn [truthy negb mbind Result_bind findSerializerById]. rewrite Hs. reflexivity.
Qed.

Lemma readObject_known_id this inp (t : Z) inp' s :
  readInt inp = Ok (t, inp') ->
  registry this !! t = Some s ->
  readObject this inp = read s inp'.
Proof. intros Hint Hs. unfold readObject. rewrite Hint. cbn. by rewrite Hs. Qed.

(** [readObject] has no such guard: an unknown id makes it dereference
    [undefined]. *)
Lemma readObject_unknown_id this inp (t : Z) inp' :
  readInt inp = Ok (t, inp') ->
  registry this !! t = None ->
  readObject this inp =
  Throw (TypeError "Cannot read properties of undefined (reading 'read')").
Proof. intros Hint Hs. unfold readObject. rewrite Hint. cbn. by rewrite Hs. Qed.

(** *** Registration *)

Lemma registerSerializer_duplicate_name this name s (i : Z) :
  serializerNameToId this !! name = Some i -> i <> 0 ->
  registerSerializer this name s =
  Throw (RangeError "Given serializer name is already in the registry.").
Proof.
  intros Hn Hi. unfold registerSerializer. rewrite Hn. cbn.
  by destruct (Z.eqb_spec i 0).
Qed.

Lemma registerSerializer_duplicate_id this name s :
  serializerNameToId this !! name = None \/ serializerNameToId this !! name = Some 0 ->
  is_Some (registry this !! id s) ->
  registerSerializer this name s =
  Throw (RangeError "Given serializer id is already in the registry.").
Proof.
  intros Hn [s0 Hs]. unfold registerSerializer. rewrite Hs.
  by destruct Hn as [-> | ->].
Qed.

(** A name that maps to id [0] passes the name test: the registration
    goes through and the name is mapped anew. *)
Lemma registerSerializer_name_of_zero this name s :
  serializerNameToId this !! name = Some 0 ->
  registry this !! id s = None ->
  exists this',
    registerSerializer this name s = Ok this'
    /\ serializerNameToId this' !! name = Some (id s).
Proof.
  intros Hn Hs. eexists. split.
  - apply registerSerializer_Ok. eauto.
  - cbn. by rewrite lookup_insert_eq.
Qed.

(** *** The two pass-through tests *)

Lemma toData_passes_iff_isData this data strategy :
  toData hp this data strategy = Ok data <-> isData data = true.
Proof.
  split.
  - apply toData_result_isData.
  - apply toData_isData.
Qed.

(** C10. The pass-through tests of the two directions differ.  [toObject]
    returns unchanged every non-null value whose [getType] property is
    missing or falsy, and decodes everything else: an object that merely
    carries a [getType] method is looked up by the id that method returns,
    failing when the id is unknown and read by the codec when it is known.
    [toData] returns its argument unchanged exactly when it is a
    [HeapData] instance. *)
Theorem pass_through_predicates_differ this strategy :
  (forall data,
     nullish data = false -> truthy (getProp hp data "getType") = false ->
     toObject hp this data = Ok data)
  /\ (forall data, toData hp this data strategy = Ok data <-> isData data = true)
  /\ (forall cls fields (t : Z),
        lookupField "getType" fields = VMethod (VNumber t) ->
        registry this !! t = None ->
        isData (VObject cls fields) = false
        /\ toObject hp this (VObject cls fields) =
           Throw (RangeErrorAbout "There is no suitable deserializer for data with type "
                    (VNumber t)))
  /\ (forall cls fields (t : Z) s buffer,
        lookupField "getType" fields = VMethod (VNumber t) ->
        registry this !! t = Some s ->
        lookupField "toBuffer" fields = VMethod buffer ->
        toObject hp this (VObject cls fields) =
        fst <$> read s (new_ObjectDataInput buffer DATA_OFFSET
                          (isBigEndian (serializationConfig this)))).
Proof.
  split; [|split; [|split]].
  - intros data Hnull Htype. unfold toObject. by rewrite Hnull, Htype.
  - intros data. apply toData_passes_iff_isData.
  - intros cls fields t Htype Hreg. split; [done|].
    unfold toObject, callMethod. cbn. rewrite Htype. cbn. by rewrite Hreg.
  - intros cls fields t s buffer Htype Hreg Hbuf.
    unfold toObject, callMethod. cbn. rewrite Htype. cbn. rewrite Hreg, Hbuf.
    reflexivity.
Qed.

(** *** Construction as one run of registrations *)

Lemma bind_ret {A} (m : Result A) : m ≫= Ok = m.
Proof. by destruct m. Qed.

Lemma registerAll_app this (l k : list (string * Serializer)) :
  registerAll this (l ++ k) = registerAll this l ≫= (fun this' => registerAll this' k).
Proof.
  revert this. induction l as [|[name s] l IH]; intros this; cbn; [done|].
  destruct (registerSerializer this name s) as [this1|e]; cbn; [apply IH | done].
Qed.

Lemma registerAll_fields this entries this' :
  registerAll this entries = Ok this' ->
  compactStreamSerializer this' = compactStreamSerializer this
  /\ compactClasses this' = compactClasses this
  /\ portableSerializer this' = portableSerializer this
  /\ identifiedSerializer this' = identifiedSerializer this
  /\ serializationConfig this' = serializationConfig this.
Proof.
  revert this. induction entries as [|[name s] rest IH]; intros this; cbn.
  - by intros [= <-].
  - intros H. inv_bind H.
    apply registerSerializer_Ok in Ha as (_ & _ & ->).
    by apply IH in H.
Qed.

Lemma registerSerializer_withCompactClasses (classes : gset string) this name s :
  registerSerializer (withCompactClasses classes this) name s
  = withCompactClasses classes <$> registerSerializer this name s.
Proof.
  unfold registerSerializer. cbn.
  destruct (match serializerNameToId this !! name with
            | Some i => negb (i =? 0)
            | None => false
            end); [done|].
  by destruct (registry this !! id s).
Qed.

Lemma registerAll_withCompactClasses (classes : gset string) this entries :
  registerAll (withCompactClasses classes this) entries
  = withCompactClasses classes <$> registerAll this entries.
Proof.
  revert this. induction entries as [|[name s] rest IH]; intros this; cbn; [done|].
  rewrite registerSerializer_withCompactClasses.
  destruct (registerSerializer this name s) as [this1|e]; cbn; [apply IH | done].
Qed.

Lemma registerDefaultSerializers_entries env cfg :
  registerDefaultSerializers env (initialService env cfg)
  = registerAll (initialService env cfg) (defaultEntries env cfg).
Proof.
  unfold registerDefaultSerializers.
  change (defaultEntries env cfg)
    with (removelast (defaultEntries env cfg) ++ [("!json", jsonSerializer env cfg)]).
  rewrite registerAll_app.
  change (removelast (defaultEntries env cfg)) with
    (removelast (defaultEntries env (serializationConfig (initialService env cfg)))).
  destruct (registerAll (initialService env cfg) _) as [this1|e] eqn:H; [|done].
  apply registerAll_fields in H as (_ & _ & _ & _ & Hcfg).
  cbn [mbind Result_bind registerAll]. rewrite Hcfg, bind_ret. cbn [serializationConfig initialService].
  unfold jsonSerializer. by destruct (jsonStringDeserializationPolicy cfg).
Qed.

Lemma registerCompactSerializers_withCompactClasses this :
  registerCompactSerializers this
  = withCompactClasses
      (fold_left (fun classes clazz => {[clazz]} ∪ classes)
         (compact_serializers (serializationConfig this)) (compactClasses this))
      this.
Proof.
  unfold registerCompactSerializers.
  generalize (compact_serializers (serializationConfig this)) as classes.
  intros classes.
  assert (this = withCompactClasses (compactClasses this) this) as Hthis by by destruct this.
  rewrite Hthis at 1. generalize (compactClasses this) as base.
  induction classes as [|c classes IH]; intros base; cbn; [done|].
  apply (IH ({[c]} ∪ base)).
Qed.

Lemma registerCustomSerializers_entries this :
  registerCustomSerializers this = registerAll this (customEntries (serializationConfig this)).
Proof. reflexivity. Qed.

Lemma registerGlobalSerializer_entries this :
  registerGlobalSerializer this = registerAll this (globalEntries (serializationConfig this)).
Proof.
  unfold registerGlobalSerializer, globalEntries.
  destruct (globalSerializer (serializationConfig this)); cbn; [|done].
  by rewrite bind_ret.
Qed.

(** The constructor is one run of registrations over [allEntries],
    started from the empty registry; the compact classes are set aside. *)
Lemma construction_registerAll env cfg :
  new_SerializationServiceV1 env cfg
  = withCompactClasses (compactClassesOf cfg)
      <$> registerAll (initialService env cfg) (allEntries env cfg).
Proof.
  unfold new_SerializationServiceV1, allEntries.
  change (mkService ∅ ∅ (new_CompactStreamSerializer env) ∅
            (new_PortableSerializer env cfg) (createIdentifiedSerializer env cfg) cfg)
    with (initialService env cfg).
  rewrite registerDefaultSerializers_entries, registerAll_app.
  destruct (registerAll (initialService env cfg) (defaultEntries env cfg))
    as [this1|e] eqn:H1; [|done].
  cbn [mbind Result_bind]. rewrite registerCustomSerializers_entries, registerAll_app.
  apply registerAll_fields in H1 as (_ & Hclasses1 & _ & _ & Hcfg1).
  rewrite Hcfg1. cbn [serializationConfig initialService].
  destruct (registerAll this1 (customEntries cfg)) as [this2|e] eqn:H2; [|done].
  cbn [mbind Result_bind].
  apply registerAll_fields in H2 as (_ & Hclasses2 & _ & _ & Hcfg2).
  rewrite registerGlobalSerializer_entries, registerCompactSerializers_withCompactClasses.
  rewrite Hcfg2, Hcfg1, Hclasses2, Hclasses1.
  cbn [serializationConfig compactClasses initialService withCompactClasses].
  rewrite Hcfg2, Hcfg1. cbn [serializationConfig initialService].
  fold (compactClassesOf cfg).
  apply registerAll_withCompactClasses.
Qed.

(** *** Registration runs over distinct names *)

Lemma registerAll_fresh_ids this entries this' :
  registerAll this entries = Ok this' ->
  NoDup (entryIds entries)
  /\ forall i, i ∈ entryIds entries -> registry this !! i = None.
Proof.
  revert this. induction entries as [|[name s] rest IH]; intros this; cbn.
  - intros _. split; [constructor | intros i []%elem_of_nil].
  - intros H. inv_bind H.
    apply registerSerializer_Ok in Ha as (_ & Hfree & ->).
    destruct (IH _ H) as (Hnodup & Hrest). cbn in Hrest.
    assert (id s ∉ entryIds rest) as Hnotin.
    { intros Hin%Hrest. by rewrite lookup_insert_eq in Hin. }
    split; [by constructor|].
    intros i [->|Hin]%elem_of_cons; [done|].
    specialize (Hrest i Hin).
    destruct (decide (id s = i)) as [<-|Hne]; [done|].
    by rewrite lookup_insert_ne in Hrest.
Qed.

Lemma registerAll_succeeds this entries :
  NoDup entries.*1 ->
  (forall n, n ∈ entries.*1 -> serializerNameToId this !! n = None) ->
  NoDup (entryIds entries) ->
  (forall i, i ∈ entryIds entries -> registry this !! i = None) ->
  exists this', registerAll this entries = Ok this'.
Proof.
  revert this. induction entries as [|[name s] rest IH]; intros this; cbn.
  - eauto.
  - intros [Hname Hnames]%NoDup_cons Hfresh [Hid Hids]%NoDup_cons Hfreshid.
    pose proof (Hfresh name (list_elem_of_here _ _)) as Hn.
    pose proof (Hfreshid (id s) (list_elem_of_here _ _)) as Hi.
    rewrite (proj2 (registerSerializer_Ok this name s _)
               (conj (or_introl Hn) (conj Hi eq_refl))).
    cbn [mbind Result_bind]. apply IH; cbn [registry serializerNameToId]; try done.
    + intros n Hin. rewrite lookup_insert_ne by (intros Heq; apply Hname; by rewrite Heq).
      apply Hfresh. by constructor.
    + intros i Hin. rewrite lookup_insert_ne by (intros Heq; apply Hid; by rewrite Heq).
      apply Hfreshid. by constructor.
Qed.

Lemma registerAll_other this entries this' :
  registerAll this entries = Ok this' ->
  (forall n, n ∉ entries.*1 -> serializerNameToId this' !! n = serializerNameToId this !! n)
  /\ (forall i, i ∉ entryIds entries -> registry this' !! i = registry this !! i).
Proof.
  revert this. induction entries as [|[name s] rest IH]; intros this; cbn.
  - by intros [= <-].
  - intros H. inv_bind H.
    apply registerSerializer_Ok in Ha as (_ & _ & ->).
    destruct (IH _ H) as (Hnames & Hids). cbn in Hnames, Hids. split.
    + intros n [Hne Hn]%not_elem_of_cons. rewrite Hnames by done.
      by rewrite lookup_insert_ne.
    + intros i [Hne Hi]%not_elem_of_cons. rewrite Hids by done.
      by rewrite lookup_insert_ne.
Qed.

Lemma registerAll_lookup this entries this' name s :
  registerAll this entries = Ok this' ->
  NoDup entries.*1 ->
  (name, s) ∈ entries ->
  serializerNameToId this' !! name = Some (id s) /\ registry this' !! id s = Some s.
Proof.
  revert this. induction entries as [|[name0 s0] rest IH]; intros this; cbn.
  - intros _ _ []%elem_of_nil.
  - intros H [Hname Hnames]%NoDup_cons Hin. inv_bind H.
    apply elem_of_cons in Hin as [[= -> ->]|Hin]; [|by eapply IH].
    destruct (registerAll_other _ _ _ H) as (Hn & _).
    destruct (registerAll_fresh_ids _ _ _ H) as (_ & Hfresh).
    apply registerSerializer_Ok in Ha as (_ & _ & ->). cbn in Hn, Hfresh.
    rewrite Hn, lookup_insert_eq by done. split; [done|].
    destruct (decide (id s0 ∈ entryIds rest)) as [Hi|Hi].
    + apply Hfresh in Hi. by rewrite lookup_insert_eq in Hi.
    + destruct (registerAll_other _ _ _ H) as (_ & Hreg).
      rewrite Hreg by done. cbn. by rewrite lookup_insert_eq.
Qed.

(** *** The names the constructor uses *)

Lemma customName_inj : Inj (=) (=) customName.
Proof.
  intros a b H. unfold customName in H.
  cbv [String.append] in H. injection H as H. by apply (inj pretty).
Qed.

Lemma customName_prefix (customId : Z) :
  String.substring 0 6 (customName customId) = "!custo".
Proof. reflexivity. Qed.

Lemma customEntries_names cfg :
  (customEntries cfg).*1 = customName <$> (id <$> customSerializers cfg).
Proof.
  unfold customEntries. induction (customSerializers cfg) as [|c l IH]; cbn; [done|].
  by f_equal.
Qed.

Lemma customEntries_ids cfg : entryIds (customEntries cfg) = id <$> customSerializers cfg.
Proof.
  unfold customEntries, entryIds.
  induction (customSerializers cfg) as [|c l IH]; cbn; [done|]. by f_equal.
Qed.

Lemma entryIds_app (l k : list (string * Serializer)) :
  entryIds (l ++ k) = entryIds l ++ entryIds k.
Proof. apply map_app. Qed.

Lemma defaultEntries_names_NoDup env cfg : NoDup (defaultEntries env cfg).*1.
Proof. cbn. apply (bool_decide_unpack _). vm_compute. exact I. Qed.

Lemma defaultEntries_names_plain env cfg (name : string) :
  name ∈ (defaultEntries env cfg).*1 ->
  String.substring 0 6 name <> "!custo" /\ name <> "!global".
Proof.
  cbn. intros Hin.
  repeat (apply elem_of_cons in Hin as [->|Hin]; [by split|]).
  by apply elem_of_nil in Hin.
Qed.

Lemma globalEntries_names cfg (name : string) :
  name ∈ (globalEntries cfg).*1 -> name = "!global".
Proof.
  unfold globalEntries. destruct (globalSerializer cfg); cbn.
  - by intros ->%list_elem_of_singleton.
  - intros []%elem_of_nil.
Qed.

Lemma allEntries_names_NoDup env cfg :
  NoDup (id <$> customSerializers cfg) -> NoDup (allEntries env cfg).*1.
Proof.
  intros Hcustom. unfold allEntries. rewrite !fmap_app.
  apply NoDup_app. split; [apply defaultEntries_names_NoDup|]. split.
  - intros name [Hprefix Hglobal]%defaultEntries_names_plain
      [Hin|Hin%globalEntries_names]%elem_of_app; [|done].
    rewrite customEntries_names in Hin.
    apply list_elem_of_fmap in Hin as (i & -> & _).
    by rewrite customName_prefix in Hprefix.
  - apply NoDup_app. split; [|split].
    + rewrite customEntries_names. apply NoDup_fmap_2; [apply customName_inj | done].
    + intros name Hin ->%globalEntries_names.
      rewrite customEntries_names in Hin.
      apply list_elem_of_fmap in Hin as (i & Heq & _).
      pose proof (customName_prefix i) as Hp. by rewrite <- Heq in Hp.
    + unfold globalEntries. destruct (globalSerializer cfg); cbn.
      * apply NoDup_singleton.
      * constructor.
Qed.

(** *** What construction leaves in the registry *)

Lemma fmap_succeeded {A B} (f : A -> B) (m : Result A) :
  succeeded (f <$> m) = succeeded m.
Proof. by destruct m. Qed.

Lemma succeeded_true {A} (m : Result A) : succeeded m = true <-> exists a, m = Ok a.
Proof.
  destruct m as [a|e]; cbn; split; eauto; try discriminate. by intros [a [=]].
Qed.

Lemma construction_names_distinct env cfg :
  succeeded (new_SerializationServiceV1 env cfg) = true ->
  NoDup (allEntries env cfg).*1.
Proof.
  rewrite construction_registerAll, fmap_succeeded, succeeded_true.
  intros [this H]. apply registerAll_fresh_ids in H as [Hids _].
  apply allEntries_names_NoDup.
  unfold allEntries in Hids. rewrite !entryIds_app, customEntries_ids in Hids.
  apply NoDup_app in Hids as (_ & _ & Hids).
  by apply NoDup_app in Hids as (Hids & _).
Qed.

(** X1. Construction succeeds exactly when the ids of all the codecs it
    registers, the built-in ones, the configured custom ones and the
    global one, are pairwise distinct.  The constructors of the three
    structured codecs and the recording of the compact classes, which
    live outside this file, are taken not to fail. *)
Theorem construction_succeeds_iff_ids_distinct env cfg :
  succeeded (new_SerializationServiceV1 env cfg) = true
  <-> NoDup (entryIds (allEntries env cfg)).
Proof.
  rewrite construction_registerAll, fmap_succeeded, succeeded_true. split.
  - intros [this H]. by apply registerAll_fresh_ids in H as [H _].
  - intros Hids. apply registerAll_succeeds; try done.
    + apply allEntries_names_NoDup.
      unfold allEntries in Hids. rewrite !entryIds_app, customEntries_ids in Hids.
      apply NoDup_app in Hids as (_ & _ & Hids).
      by apply NoDup_app in Hids as (Hids & _).
Qed.

Lemma registry_after_construction_facts env cfg this :
  new_SerializationServiceV1 env cfg = Ok this ->
  (forall name s, (name, s) ∈ allEntries env cfg ->
     registeredUnder this name = SCodec s
     /\ findSerializerById this (VNumber (id s)) = SCodec s)
  /\ (forall name, name ∉ (allEntries env cfg).*1 -> registeredUnder this name = SNull)
  /\ (forall i, i ∉ entryIds (allEntries env cfg) ->
       findSerializerById this (VNumber i) = SUndefined)
  /\ serializationConfig this = cfg.
Proof.
  intros Hnew.
  pose proof (proj2 (succeeded_true _) (ex_intro _ this Hnew)) as Hsucc.
  apply construction_names_distinct in Hsucc as Hnames.
  rewrite construction_registerAll in Hnew.
  destruct (registerAll (initialService env cfg) (allEntries env cfg))
    as [this0|e] eqn:Hall; [|done].
  injection Hnew as <-.
  destruct (registerAll_other _ _ _ Hall) as (Hothername & Hotherid).
  pose proof (registerAll_fields _ _ _ Hall) as (_ & _ & _ & _ & Hcfg).
  unfold registeredUnder, findSerializerById. cbn [registry serializerNameToId withCompactClasses
    serializationConfig]. repeat split.
  - destruct (registerAll_lookup _ _ _ name s Hall Hnames H) as (-> & ->). done.
  - by destruct (registerAll_lookup _ _ _ name s Hall Hnames H) as (_ & ->).
  - intros name Hname. by rewrite Hothername.
  - intros i Hi. by rewrite Hotherid.
  - done.
Qed.

(** X2. After a successful construction the two maps of the registry
    hold exactly what the constructor registered: every entry has its name
    mapped to its id and its id mapped to the codec, no other name and no
    other id is present, and the configuration is the one given. *)
Theorem registry_after_construction env cfg this :
  new_SerializationServiceV1 env cfg = Ok this ->
  (forall name s, (name, s) ∈ allEntries env cfg ->
     serializerNameToId this !! name = Some (id s) /\ registry this !! id s = Some s)
  /\ (forall name, name ∉ (allEntries env cfg).*1 -> serializerNameToId this !! name = None)
  /\ (forall i, i ∉ entryIds (allEntries env cfg) -> registry this !! i = None)
  /\ serializationConfig this = cfg.
Proof.
  intros Hnew.
  pose proof (proj2 (succeeded_true _) (ex_intro _ this Hnew)) as Hsucc.
  apply construction_names_distinct in Hsucc as Hnames.
  rewrite construction_registerAll in Hnew.
  destruct (registerAll (initialService env cfg) (allEntries env cfg))
    as [this0|e] eqn:Hall; [|done].
  injection Hnew as <-.
  destruct (registerAll_other _ _ _ Hall) as (Hothername & Hotherid).
  pose proof (registerAll_fields _ _ _ Hall) as (_ & _ & _ & _ & Hcfg).
  cbn [registry serializerNameToId withCompactClasses serializationConfig].
  split; [|split; [|split]].
  - intros name s Hin. by eapply registerAll_lookup.
  - intros name Hname. by rewrite Hothername.
  - intros i Hi. by rewrite Hotherid.
  - done.
Qed.

(** *** Resolution on a constructed facade *)

Lemma getType_array obj :
  String.eqb (getType obj) "array" = match obj with VArray _ => true | _ => false end.
Proof.
  destruct obj; try reflexivity. cbn.
  repeat match goal with
         | |- context [String.eqb cls ?k] => destruct (String.eqb cls k); [reflexivity|]
         end.
  reflexivity.
Qed.

Lemma findSerializerByName_normalised this (name : string) (isArray : bool) :
  findSerializerByName this name isArray
  = registeredUnder this (normalisedName (serializationConfig this) name
                          +:+ (if isArray then "Array" else "")).
Proof. reflexivity. Qed.

(** Once the three structural tests have declined a value, it is looked
    up under its kind name. *)
Lemma lookupDefaultSerializer_kind this obj :
  isCompactSerializable this obj = Ok false ->
  isIdentifiedDataSerializable hp obj = false ->
  isPortableSerializable hp obj = false ->
  lookupDefaultSerializer hp this obj
  = Ok (registeredUnder this (kindLookupName (serializationConfig this) obj)).
Proof.
  intros Hcompact Hidentified Hportable. unfold lookupDefaultSerializer.
  rewrite Hcompact. cbn [mbind Result_bind]. rewrite Hidentified, Hportable.
  rewrite getType_array, !findSerializerByName_normalised.
  destruct obj; cbn [kindLookupName]; rewrite ?append_empty_r; try reflexivity.
  by destruct elems.
Qed.

(** X3. On a constructed facade, a value that the three structural tests
    decline and whose kind name the constructor registered resolves to the
    codec registered under that name: custom tags, the global serializer
    and the JSON fallback never replace a built-in codec, and the codec for
    a number or an empty array is the one [defaultNumberType] names. *)
Theorem kind_resolves_to_registered_entry env cfg this obj s :
  new_SerializationServiceV1 env cfg = Ok this ->
  isCompactSerializable this obj = Ok false ->
  isIdentifiedDataSerializable hp obj = false ->
  isPortableSerializable hp obj = false ->
  (kindLookupName cfg obj, s) ∈ allEntries env cfg ->
  findSerializerFor hp this obj = Ok (SCodec s).
Proof.
  intros Hnew Hcompact Hidentified Hportable Hentry.
  destruct (registry_after_construction_facts env cfg this Hnew) as (Hin & _ & _ & Hcfg).
  rewrite findSerializerFor_value by (by eapply isCompactSerializable_Ok).
  rewrite lookupDefaultSerializer_kind, Hcfg by done.
  by destruct (Hin _ _ Hentry) as (-> & _).
Qed.

(** X4. On a constructed facade, a value that the structural tests
    decline, whose kind name is not registered, and that is tagged with
    the id (at least 1) of a configured custom serializer resolves to that
    custom serializer. *)
Theorem custom_tag_selects_configured_codec env cfg this obj customSerializer :
  new_SerializationServiceV1 env cfg = Ok this ->
  validNumberType (defaultNumberType cfg) = true ->
  isCompactSerializable this obj = Ok false ->
  isIdentifiedDataSerializable hp obj = false ->
  isPortableSerializable hp obj = false ->
  kindLookupName cfg obj ∉ (allEntries env cfg).*1 ->
  customSerializer ∈ customSerializers cfg ->
  getProp hp obj "hzCustomId" = VNumber (id customSerializer) ->
  1 <= id customSerializer ->
  findSerializerFor hp this obj = Ok (SCodec customSerializer).
Proof.
  intros Hnew _ Hcompact Hidentified Hportable Hkind Hcustom Htag Hge.
  destruct (registry_after_construction_facts env cfg this Hnew) as (Hin & Hout & _ & Hcfg).
  assert ((customName (id customSerializer), customSerializer) ∈ allEntries env cfg)
    as Hentry.
  { unfold allEntries, customEntries. apply elem_of_app. right. apply elem_of_app. left.
    apply list_elem_of_In, in_map_iff. exists customSerializer.
    split; [done | by apply list_elem_of_In]. }
  destruct (Hin _ _ Hentry) as (_ & Hid).
  rewrite findSerializerFor_value by (by eapply isCompactSerializable_Ok).
  rewrite lookupDefaultSerializer_kind, Hcfg, (Hout _ Hkind) by done. cbn.
  unfold fallbackStages, lookupCustomSerializer, isCustomSerializable.
  rewrite Htag. cbn [typeof_number andb].
  destruct (Z.leb_spec 1 (id customSerializer)); [|lia].
  by rewrite Hid.
Qed.

(** X5. On a constructed facade, a value that the structural tests
    decline, whose kind name is not registered and that carries no custom
    tag resolves to the configured global serializer when there is one,
    and to the JSON codec the deserialization policy selects otherwise. *)
Theorem untagged_value_takes_global_then_json env cfg this obj :
  new_SerializationServiceV1 env cfg = Ok this ->
  validNumberType (defaultNumberType cfg) = true ->
  isCompactSerializable this obj = Ok false ->
  isIdentifiedDataSerializable hp obj = false ->
  isPortableSerializable hp obj = false ->
  kindLookupName cfg obj ∉ (allEntries env cfg).*1 ->
  isCustomSerializable hp obj = false ->
  findSerializerFor hp this obj =
  Ok (SCodec (match globalSerializer cfg with
              | Some candidate => candidate
              | None => jsonSerializer env cfg
              end)).
Proof.
  intros Hnew _ Hcompact Hidentified Hportable Hkind Htag.
  destruct (registry_after_construction_facts env cfg this Hnew) as (Hin & Hout & _ & Hcfg).
  rewrite findSerializerFor_value by (by eapply isCompactSerializable_Ok).
  rewrite lookupDefaultSerializer_kind, Hcfg, (Hout _ Hkind) by done. cbn.
  unfold fallbackStages, lookupCustomSerializer, lookupGlobalSerializer.
  rewrite Htag. cbn [isNullRef].
  rewrite !findSerializerByName_normalised.
  change (normalisedName (serializationConfig this) "!global" +:+ "") with "!global".
  change (normalisedName (serializationConfig this) "!json" +:+ "") with "!json".
  destruct (globalSerializer cfg) as [candidate|] eqn:Hglobal.
  - assert (("!global", candidate) ∈ allEntries env cfg) as Hentry.
    { unfold allEntries, globalEntries. rewrite Hglobal.
      apply elem_of_app. right. apply elem_of_app. right. constructor. }
    by destruct (Hin _ _ Hentry) as (-> & _).
  - rewrite (Hout "!global"); cbn [isNullRef].
    + assert (("!json", jsonSerializer env cfg) ∈ allEntries env cfg) as Hentry.
      { unfold allEntries. apply elem_of_app. left. unfold defaultEntries.
        repeat constructor. }
      by destruct (Hin _ _ Hentry) as (-> & _).
    + unfold allEntries. rewrite !fmap_app. unfold globalEntries. rewrite Hglobal.
      cbn [fmap list_fmap]. rewrite app_nil_r.
      intros [Hd|Hc]%elem_of_app.
      * by apply defaultEntries_names_plain in Hd as (_ & Hd).
      * rewrite customEntries_names in Hc.
        apply list_elem_of_fmap in Hc as (i & Heq & _).
        pose proof (customName_prefix i) as Hp. by rewrite <- Heq in Hp.
Qed.

(** X6. On a constructed facade the resolver has three outcomes only: it
    throws for [undefined], and for nothing else; it returns a codec, and
    then the registry holds that codec under its id; or it returns
    [undefined], and then the value reached the custom stage with a tag
    under which nothing is registered.  It never returns [null] and never
    raises its final no-suitable-serializer error. *)
Theorem resolver_outcomes env cfg this obj :
  new_SerializationServiceV1 env cfg = Ok this ->
  validNumberType (defaultNumberType cfg) = true ->
  match findSerializerFor hp this obj with
  | Throw e => obj = VUndefined /\ e = RangeError "undefined cannot be serialized."
  | Ok (SCodec s) => findSerializerById this (VNumber (id s)) = SCodec s
  | Ok SUndefined =>
      isCustomSerializable hp obj = true
      /\ findSerializerById this (getProp hp obj "hzCustomId") = SUndefined
  | Ok SNull => False
  end.
Proof.
  intros [Hinst _]%construction_installed _.
  assert (forall s, findSerializerFor hp this obj = Ok (SCodec s) ->
                    findSerializerById this (VNumber (id s)) = SCodec s) as Hcodec.
  { intros s Hs%findSerializerFor_registered; [|done]. cbn. by rewrite Hs. }
  assert (obj = VUndefined \/ obj <> VUndefined) as [->|Hobj]
    by (destruct obj; (by left) || (by right)).
  { done. }
  destruct (isCustomSerializable hp obj) eqn:Htag.
  - assert (nullish obj = false) as Hnull by (by destruct obj).
    destruct (lookupDefaultSerializer_cases this obj Hinst Hnull) as [Hd|[s Hd]].
    + pose proof (findSerializerFor_value this obj Hnull) as Hfind.
      rewrite Hd in Hfind. cbn in Hfind.
      unfold fallbackStages, lookupCustomSerializer in Hfind. rewrite Htag in Hfind.
      cbn [isNullRef] in Hfind.
      destruct (findSerializerById this (getProp hp obj "hzCustomId")) as [| |s] eqn:Hid.
      * by rewrite Hfind.
      * by apply findSerializerById_not_null in Hid.
      * cbn in Hfind. specialize (Hcodec s Hfind). by rewrite Hfind.
    + pose proof (findSerializerFor_value this obj Hnull) as Hfind.
      rewrite Hd in Hfind. cbn in Hfind. specialize (Hcodec s Hfind). by rewrite Hfind.
  - destruct (findSerializerFor_total_untagged this obj Hinst Hobj Htag) as [s Hs].
    specialize (Hcodec s Hs). by rewrite Hs.
Qed.

(** *** Nested values *)

Lemma readInt_at (pre post : list Z) (n : Z) (bigEndian : bool) :
  isInt32 n = true ->
  readInt (mkDataInput (VBuffer (pre ++ (if bigEndian then int32BE n else int32LE n) ++ post))
             (length pre) bigEndian)
  = Ok (n, mkDataInput
             (VBuffer (pre ++ (if bigEndian then int32BE n else int32LE n) ++ post))
             (length pre + 4)%nat bigEndian).
Proof.
  intros Hn. unfold readInt. cbn [in_buffer in_pos in_bigEndian].
  destruct bigEndian.
  - by rewrite readInt32BE_at.
  - by rewrite readInt32LE_at.
Qed.

(** X7. Nested round trip.  On a constructed facade, [writeObject] of a
    value the resolver gives a codec appends the codec's id, in the
    cursor's byte order, and the codec's payload; when the codec honours
    its contract on the value, [readObject] from where [writeObject]
    started returns the value again. *)
Theorem writeObject_readObject_roundtrip env cfg this out v s :
  new_SerializationServiceV1 env cfg = Ok this ->
  findSerializerFor hp this v = Ok (SCodec s) ->
  isInt32 (id s) = true ->
  honoursContract s (out_bigEndian out)
    (out_buffer out ++ (if out_bigEndian out then int32BE (id s) else int32LE (id s))) v ->
  exists out' rest,
    writeObject hp this out v = Ok out'
    /\ out_bigEndian out' = out_bigEndian out
    /\ (exists payload,
          out_buffer out'
          = out_buffer out
            ++ (if out_bigEndian out then int32BE (id s) else int32LE (id s)) ++ payload)
    /\ readObject this
         (mkDataInput (VBuffer (out_buffer out')) (length (out_buffer out))
            (out_bigEndian out))
       = Ok (v, rest).
Proof.
  intros [Hinst _]%construction_installed Hfind Hid (payload & rest & Hwrite & Hread).
  pose proof (findSerializerFor_registered this v s Hinst Hfind) as Hreg.
  eexists _, rest. split; [|split; [|split]].
  - unfold writeObject, writeInt. rewrite Hfind. cbn. rewrite Hid.
    unfold appendBytes. exact Hwrite.
  - reflexivity.
  - exists payload. cbn. by rewrite <- app_assoc.
  - cbn [out_buffer]. rewrite <- app_assoc.
    unfold readObject. rewrite (readInt_at _ _ _ _ Hid). cbn. rewrite Hreg.
    rewrite app_assoc.
    replace (length (out_buffer out) + 4)%nat
      with (length (out_buffer out
                    ++ (if out_bigEndian out then int32BE (id s) else int32LE (id s)))).
    + exact Hread.
    + rewrite length_app. by destruct (out_bigEndian out).
Qed.

(** *** The type id of an envelope *)

(** X8. The type id an envelope of [toData] reports through [getType] is
    the id of the codec the resolver chose for the value, whatever the
    byte order configured. *)
Theorem envelope_type_is_codec_id this object strategy subject (h : Z) s (payload : list Z) :
  isData object = false ->
  findSerializerFor hp this object = Ok (SCodec s) ->
  partitionSubject this object = Ok subject ->
  strategy subject = Ok (VNumber h) ->
  isInt32 h = true ->
  isInt32 (id s) = true ->
  write s (headerOutput this h (id s)) object
    = Ok (appendBytes (headerOutput this h (id s)) payload) ->
  exists data,
    toData hp this object strategy = Ok data
    /\ callMethod hp data "getType" = Ok (VNumber (id s)).
Proof.
  intros Hdata Hfind Hsubject Hhash Hh Hid Hwrite.
  eexists. split; [by eapply header_envelope_bytes|].
  unfold callMethod. cbn [getProp String.eqb Ascii.eqb Bool.eqb].
  unfold HeapData_getType.
  change TYPE_OFFSET with (length (int32BE h)).
  by rewrite (readInt32BE_at (int32BE h) payload (id s) Hid).
Qed.

(** *** Failures of [toData] *)

(** X9. When the value resolves but its partition key, present and not
    null, cannot be serialized, [toData] of the value fails with the
    failure of the key, under every strategy. *)
Theorem toData_partition_key_failure this object strategy (r : SerializerRef) (e : Error) :
  isData object = false ->
  findSerializerFor hp this object = Ok r ->
  nullish (getProp hp object "partitionKey") = false ->
  toData hp this (getProp hp object "partitionKey") (defaultPartitionStrategy hp) = Throw e ->
  toData hp this object strategy = Throw e.
Proof.
  intros Hdata Hfind Hkey Hfail.
  rewrite toData_unfold. unfold toData_body. rewrite Hdata, Hfind, Hkey, Hfail.
  destruct (nullish object) eqn:Hobj; [|reflexivity].
  by rewrite getProp_nullish in Hkey.
Qed.

(** *** The factories of the identified codec *)

(** X10. The identified codec is built over the configured factories
    with the five built-in ones assigned over them: a configured factory
    keeps its id unless that id is one of the five reserved ones, in which
    case the built-in factory replaces it. *)
Theorem builtin_factories_replace_configured env cfg :
  createIdentifiedSerializer env cfg
  = new_IdentifiedDataSerializableSerializer env (mergedFactories env cfg)
  /\ (forall factoryId,
        factoryId ∉ [PREDICATE_FACTORY_ID env; RELIABLE_TOPIC_MESSAGE_FACTORY_ID env;
                     CLUSTER_DATA_FACTORY_ID env; AGGREGATOR_FACTORY_ID env;
                     REST_VALUE_FACTORY_ID env] ->
        mergedFactories env cfg !! factoryId = dataSerializableFactories cfg !! factoryId)
  /\ (forall factoryId,
        factoryId ∈ [PREDICATE_FACTORY_ID env; RELIABLE_TOPIC_MESSAGE_FACTORY_ID env;
                     CLUSTER_DATA_FACTORY_ID env; AGGREGATOR_FACTORY_ID env;
                     REST_VALUE_FACTORY_ID env] ->
        exists builtin,
          mergedFactories env cfg !! factoryId = Some builtin
          /\ builtin ∈ ["predicateFactory"; "reliableTopicMessageFactory";
                        "clusterDataFactory"; "aggregatorFactory"; "restValueFactory"]).
Proof.
  split; [reflexivity|]. unfold mergedFactories. split.
  - intros k Hk.
    rewrite !lookup_insert_ne; [done|..]; intros <-; apply Hk; repeat constructor.
  - intros k Hk.
    destruct (decide (REST_VALUE_FACTORY_ID env = k)) as [<-|?].
    { rewrite lookup_insert_eq. exists "restValueFactory". split; [done|]. repeat constructor. }
    rewrite lookup_insert_ne by done.
    destruct (decide (AGGREGATOR_FACTORY_ID env = k)) as [<-|?].
    { rewrite lookup_insert_eq. exists "aggregatorFactory". split; [done|]. repeat constructor. }
    rewrite lookup_insert_ne by done.
    destruct (decide (CLUSTER_DATA_FACTORY_ID env = k)) as [<-|?].
    { rewrite lookup_insert_eq. exists "clusterDataFactory". split; [done|]. repeat constructor. }
    rewrite lookup_insert_ne by done.
    destruct (decide (RELIABLE_TOPIC_MESSAGE_FACTORY_ID env = k)) as [<-|?].
    { rewrite lookup_insert_eq. exists "reliableTopicMessageFactory".
      split; [done|]. repeat constructor. }
    rewrite lookup_insert_ne by done.
    destruct (decide (PREDICATE_FACTORY_ID env = k)) as [<-|?].
    { rewrite lookup_insert_eq. exists "predicateFactory". split; [done|]. repeat constructor. }
    repeat (apply elem_of_cons in Hk as [->|Hk]; [done|]).
    by apply elem_of_nil in Hk.
Qed.

(** *** What [toData] asks of the strategy *)

(** X11. [toData] consults the partitioning strategy on the partition
    subject only: two strategies that agree there give the same outcome,
    envelope or failure. *)
Theorem toData_strategy_on_subject_only this object strategy1 strategy2 :
  (forall subject, partitionSubject this object = Ok subject ->
                   strategy1 subject = strategy2 subject) ->
  toData hp this object strategy1 = toData hp this object strategy2.
Proof.
  intros Hagree.
  rewrite (toData_unfold this object strategy1), (toData_unfold this object strategy2).
  unfold toData_body, partitionSubject in *.
  destruct (isData object); [reflexivity|].
  destruct (findSerializerFor hp this object) as [r|e]; [|reflexivity].
  cbn [mbind Result_bind]. unfold calculatePartitionHash.
  destruct (nullish (getProp hp object "partitionKey")) eqn:Hkey.
  - rewrite andb_false_r. by rewrite (Hagree object eq_refl).
  - destruct (nullish object) eqn:Hobj.
    { by rewrite getProp_nullish in Hkey. }
    cbn [negb andb].
    destruct (toData hp this (getProp hp object "partitionKey")
                (defaultPartitionStrategy hp)) as [key|e]; [|reflexivity].
    cbn [mbind Result_bind]. by rewrite (Hagree key eq_refl).
Qed.

(** *** Dispatch of [toObject] *)

(** X12. [toObject] dispatches an envelope on the big-endian type id at
    offset 4, whatever byte order is configured: with a codec registered
    under that id the outcome is that codec's [read] from offset 8, in the
    configured order; with none it is the error naming the id. *)
Theorem toObject_dispatches_on_type_id this (h t : Z) (payload : list Z) :
  isInt32 t = true ->
  toObject hp this (VHeapData (int32BE h ++ int32BE t ++ payload)) =
  match registry this !! t with
  | Some s =>
      fst <$> read s (new_ObjectDataInput (VBuffer (int32BE h ++ int32BE t ++ payload))
                        DATA_OFFSET (isBigEndian (serializationConfig this)))
  | None =>
      Throw (RangeErrorAbout "There is no suitable deserializer for data with type "
               (VNumber t))
  end.
Proof.
  intros Ht. destruct (registry this !! t) as [s|] eqn:Hs.
  - by apply toObject_envelope.
  - by apply toObject_unknown_type.
Qed.

(** *** Arrays *)

(** X13. The resolver looks at the first element of a non-empty array
    and at nothing behind it: two arrays with the same first element
    resolve to the same codec. *)
Theorem array_resolution_by_first_element this (first : Value) (rest rest' : list Value)
    (r : SerializerRef) :
  findSerializerFor hp this (VArray (first :: rest)) = Ok r
  <-> findSerializerFor hp this (VArray (first :: rest')) = Ok r.
Proof.
  assert (forall l l', findSerializerFor hp this (VArray (first :: l)) = Ok r ->
                       findSerializerFor hp this (VArray (first :: l')) = Ok r) as Hone.
  { intros l l'. rewrite !findSerializerFor_value by done.
    change (lookupDefaultSerializer hp this (VArray (first :: l')))
      with (lookupDefaultSerializer hp this (VArray (first :: l))).
    destruct (lookupDefaultSerializer hp this (VArray (first :: l))) as [r0|e]; [|done].
    cbn [mbind Result_bind]. unfold fallbackStages, lookupCustomSerializer.
    destruct r0; cbn; try done.
    destruct (lookupGlobalSerializer this); cbn; try done.
    destruct (findSerializerByName this "!json" false); cbn; done. }
  split; apply Hone.
Qed.

End Properties.

(** ** The properties on the concrete installation *)

Lemma sample_constructed (cfg : SerializationConfigImpl) :
  succeeded (new_SerializationServiceV1 Sample.collaborators cfg) = true ->
  new_SerializationServiceV1 Sample.collaborators cfg = Ok (Sample.constructed cfg).
Proof.
  unfold Sample.constructed.
  by destruct (new_SerializationServiceV1 Sample.collaborators cfg).
Qed.

Example sample_construction :
  succeeded (new_SerializationServiceV1 Sample.collaborators Sample.defaultConfig) = true
  /\ succeeded (new_SerializationServiceV1 Sample.collaborators Sample.integerConfig) = true
  /\ succeeded (new_SerializationServiceV1 Sample.collaborators Sample.littleEndianConfig)
     = true.
Proof. repeat split; vm_compute; reflexivity. Qed.

Lemma toObject_toData_roundtrip_witness :
  exists data,
    toData Sample.hashOfBytes Sample.integerService (VNumber 14)
      (defaultPartitionStrategy Sample.hashOfBytes) = Ok data
    /\ toObject Sample.hashOfBytes Sample.integerService data = Ok (VNumber 14).
Proof.
  apply (toObject_toData_roundtrip Sample.hashOfBytes Sample.collaborators
           Sample.integerConfig Sample.integerService (VNumber 14)
           (defaultPartitionStrategy Sample.hashOfBytes) (VNumber 14) 0
           Sample.IntegerSerializer).
  - apply sample_constructed. vm_compute; reflexivity.
  - reflexivity.
  - reflexivity.
  - reflexivity.
  - reflexivity.
  - reflexivity.
  - reflexivity.
  - exists [0; 0; 0; 14],
      (mkDataInput (VBuffer [0;0;0;0; 255;255;255;249; 0;0;0;14]) 12 true).
    split; vm_compute; reflexivity.
Defined.

Lemma header_always_big_endian_witness :
  toData Sample.hashOfBytes Sample.littleEndianService Sample.taggedWithKey
    (Sample.constantStrategy 1)
  = Ok (VHeapData (int32BE 1 ++ int32BE 10 ++ int32LE 42)).
Proof.
  refine (proj1 (header_always_big_endian Sample.hashOfBytes Sample.littleEndianService
                   Sample.taggedWithKey (Sample.constantStrategy 1)
                   (VHeapData [0;0;0;0; 255;255;255;252; 1]) 1 Sample.customSerializer10
                   (int32LE 42) _ _ _ _ _ _ _)).
  - reflexivity.
  - reflexivity.
  - vm_compute; reflexivity.
  - reflexivity.
  - reflexivity.
  - reflexivity.
  - vm_compute; reflexivity.
Defined.

(** C2, as stated, fails: on a facade configured little-endian the two
    header fields are still big-endian, while the payload is
    little-endian. *)
Lemma header_not_little_endian :
  isBigEndian (serializationConfig Sample.littleEndianService) = false
  /\ exists envelope,
       toData Sample.hashOfBytes Sample.littleEndianService Sample.taggedWithKey
         (Sample.constantStrategy 1) = Ok (VHeapData envelope)
       /\ take 8 envelope <> int32LE 1 ++ int32LE 10
       /\ take 8 envelope = int32BE 1 ++ int32BE 10
       /\ drop 8 envelope = int32LE 42.
Proof.
  split; [vm_compute; reflexivity|].
  exists [0;0;0;1; 0;0;0;10; 42;0;0;0].
  split; [vm_compute; reflexivity|].
  split; [vm_compute; discriminate|].
  split; vm_compute; reflexivity.
Qed.

Lemma structural_codecs_take_precedence_witness :
  findSerializerFor Sample.hashOfBytes Sample.service Sample.bothShapes
  = Ok (SCodec (identifiedSerializer Sample.service)).
Proof.
  apply (structural_codecs_take_precedence Sample.hashOfBytes Sample.service
           Sample.bothShapes false); vm_compute; reflexivity.
Defined.

Lemma array_and_name_lookup_witness :
  lookupDefaultSerializer Sample.hashOfBytes Sample.service (VArray [])
  = Ok (registeredUnder Sample.service
          (defaultNumberType (serializationConfig Sample.service) +:+ "Array")).
Proof.
  refine (proj1 (array_and_name_lookup Sample.hashOfBytes Sample.service _)).
  vm_compute; reflexivity.
Defined.

Lemma partition_hash_in_header_witness :
  exists envelope,
    toData Sample.hashOfBytes Sample.littleEndianService Sample.taggedWithKey
      (defaultPartitionStrategy Sample.hashOfBytes) = Ok (VHeapData envelope)
    /\ readInt32BE envelope PARTITION_HASH_OFFSET = Some 7.
Proof.
  refine (proj1 (partition_hash_in_header Sample.hashOfBytes Sample.littleEndianService
                   Sample.taggedWithKey (defaultPartitionStrategy Sample.hashOfBytes)
                   (VHeapData [0;0;0;0; 255;255;255;252; 1]) 7 Sample.customSerializer10
                   (int32LE 42) _ _ _ _ _ _ _)).
  - reflexivity.
  - reflexivity.
  - vm_compute; reflexivity.
  - reflexivity.
  - reflexivity.
  - reflexivity.
  - vm_compute; reflexivity.
Defined.

Lemma pass_through_predicates_differ_witness :
  toObject Sample.hashOfBytes Sample.service (VNumber 3) = Ok (VNumber 3)
  /\ isData Sample.looksLikeData = false
  /\ toObject Sample.hashOfBytes Sample.service Sample.looksLikeData =
     Throw (RangeErrorAbout "There is no suitable deserializer for data with type "
              (VNumber 12345)).
Proof.
  destruct (pass_through_predicates_differ Sample.hashOfBytes Sample.service
              (defaultPartitionStrategy Sample.hashOfBytes)) as (Hpass & _ & Hduck & _).
  split.
  - apply Hpass; reflexivity.
  - apply (Hduck "Object" [("getType", VMethod (VNumber 12345))] 12345).
    + reflexivity.
    + vm_compute; reflexivity.
Defined.

(** C3 on the code: with the default configuration, an object tagged
    [hzCustomId = 5] finds no codec at the kind-name stage, no codec is
    registered under id 5, and the resolver returns [undefined] although
    the JSON fallback is registered; [toData] then fails on
    [serializer.id]. *)
Theorem unregistered_custom_tag_skips_fallback :
  lookupDefaultSerializer Sample.hashOfBytes Sample.service Sample.unregisteredTag = Ok SNull
  /\ registry Sample.service !! 5 = None
  /\ serializerNameToId Sample.service !! "!json" = Some (-130)
  /\ findSerializerFor Sample.hashOfBytes Sample.service Sample.unregisteredTag
     = Ok SUndefined
  /\ toData Sample.hashOfBytes Sample.service Sample.unregisteredTag
       (defaultPartitionStrategy Sample.hashOfBytes)
     = Throw (TypeError "Cannot read properties of undefined (reading 'id')").
Proof. repeat split; vm_compute; reflexivity. Qed.

(** C7 on the code: for the unregistered id 12345, [toObject] raises the
    error naming the id, and [readObject] does not: it raises the
    [TypeError] of reading a property of [undefined]. *)
Theorem readObject_unknown_id_is_TypeError :
  registry Sample.service !! 12345 = None
  /\ toObject Sample.hashOfBytes Sample.service (VHeapData (int32BE 0 ++ int32BE 12345))
     = Throw (RangeErrorAbout "There is no suitable deserializer for data with type "
                (VNumber 12345))
  /\ readObject Sample.service (new_ObjectDataInput (VBuffer (int32BE 12345)) 0 true)
     = Throw (TypeError "Cannot read properties of undefined (reading 'read')").
Proof. repeat split; vm_compute; reflexivity. Qed.

(** C9 on the code: the name ["null"] is registered, for the codec of id
    0; registering another codec under that name succeeds and remaps the
    name, the codec of id 0 staying in the registry. *)
Theorem registerSerializer_accepts_name_of_id_zero :
  serializerNameToId Sample.service !! "null" = Some 0
  /\ exists this',
       registerSerializer Sample.service "null" Sample.customSerializer10 = Ok this'
       /\ serializerNameToId this' !! "null" = Some 10
       /\ registry this' !! 0 = Some Sample.NullSerializer.
Proof.
  split; [vm_compute; reflexivity|].
  destruct (registerSerializer_name_of_zero Sample.service "null" Sample.customSerializer10)
    as (this' & Hreg & Hname).
  - vm_compute; reflexivity.
  - vm_compute; reflexivity.
  - exists this'. split; [exact Hreg|]. split; [exact Hname|].
    apply registerSerializer_Ok in Hreg as (_ & _ & ->). cbn [registry].
    rewrite lookup_insert_ne by done. reflexivity.
Qed.

(** ** Further properties on the concrete installation *)

Lemma sample_service_constructed :
  new_SerializationServiceV1 Sample.collaborators Sample.defaultConfig = Ok Sample.service.
Proof. apply sample_constructed. vm_compute; reflexivity. Qed.

Lemma sample_integerService_constructed :
  new_SerializationServiceV1 Sample.collaborators Sample.integerConfig
  = Ok Sample.integerService.
Proof. apply sample_constructed. vm_compute; reflexivity. Qed.

Lemma sample_littleEndianService_constructed :
  new_SerializationServiceV1 Sample.collaborators Sample.littleEndianConfig
  = Ok Sample.littleEndianService.
Proof. apply sample_constructed. vm_compute; reflexivity. Qed.

Lemma registry_after_construction_witness :
  serializerNameToId Sample.service !! "boolean"
  = Some (id (new_default Sample.collaborators "BooleanSerializer"))
  /\ registry Sample.service !! id (new_default Sample.collaborators "BooleanSerializer")
     = Some (new_default Sample.collaborators "BooleanSerializer").
Proof.
  destruct (registry_after_construction Sample.collaborators
              Sample.defaultConfig Sample.service sample_service_constructed)
    as (Hin & _).
  apply Hin. apply elem_of_app. left. unfold defaultEntries. repeat constructor.
Defined.

Lemma kind_resolves_to_registered_entry_witness :
  findSerializerFor Sample.hashOfBytes Sample.integerService (VNumber 14)
  = Ok (SCodec (new_default Sample.collaborators "IntegerSerializer")).
Proof.
  apply (kind_resolves_to_registered_entry Sample.hashOfBytes Sample.collaborators
           Sample.integerConfig Sample.integerService (VNumber 14)).
  - exact sample_integerService_constructed.
  - vm_compute; reflexivity.
  - reflexivity.
  - reflexivity.
  - change (kindLookupName Sample.integerConfig (VNumber 14)) with "integer".
    apply elem_of_app. left. unfold defaultEntries. repeat constructor.
Defined.

Lemma custom_tag_selects_configured_codec_witness :
  findSerializerFor Sample.hashOfBytes Sample.littleEndianService Sample.taggedWithKey
  = Ok (SCodec Sample.customSerializer10).
Proof.
  apply (custom_tag_selects_configured_codec Sample.hashOfBytes Sample.collaborators
           Sample.littleEndianConfig Sample.littleEndianService Sample.taggedWithKey
           Sample.customSerializer10).
  - exact sample_littleEndianService_constructed.
  - vm_compute; reflexivity.
  - vm_compute; reflexivity.
  - reflexivity.
  - reflexivity.
  - apply (bool_decide_unpack _). vm_compute. exact I.
  - repeat constructor.
  - reflexivity.
  - vm_compute. discriminate.
Defined.

Lemma untagged_value_takes_global_then_json_witness :
  findSerializerFor Sample.hashOfBytes Sample.service Sample.plainObject
  = Ok (SCodec (jsonSerializer Sample.collaborators Sample.defaultConfig)).
Proof.
  apply (untagged_value_takes_global_then_json Sample.hashOfBytes Sample.collaborators
           Sample.defaultConfig Sample.service Sample.plainObject).
  - exact sample_service_constructed.
  - vm_compute; reflexivity.
  - vm_compute; reflexivity.
  - reflexivity.
  - reflexivity.
  - apply (bool_decide_unpack _). vm_compute. exact I.
  - reflexivity.
Defined.

Lemma resolver_outcomes_witness :
  match findSerializerFor Sample.hashOfBytes Sample.service Sample.unregisteredTag with
  | Throw e =>
      Sample.unregisteredTag = VUndefined
      /\ e = RangeError "undefined cannot be serialized."
  | Ok (SCodec s) => findSerializerById Sample.service (VNumber (id s)) = SCodec s
  | Ok SUndefined =>
      isCustomSerializable Sample.hashOfBytes Sample.unregisteredTag = true
      /\ findSerializerById Sample.service
           (getProp Sample.hashOfBytes Sample.unregisteredTag "hzCustomId") = SUndefined
  | Ok SNull => False
  end.
Proof.
  apply (resolver_outcomes Sample.hashOfBytes Sample.collaborators Sample.defaultConfig).
  - exact sample_service_constructed.
  - vm_compute; reflexivity.
Defined.

Lemma writeObject_readObject_roundtrip_witness :
  exists out' rest,
    writeObject Sample.hashOfBytes Sample.integerService (mkDataOutput [9; 9] false)
      (VNumber 14) = Ok out'
    /\ out_bigEndian out' = false
    /\ (exists payload, out_buffer out' = [9; 9] ++ int32LE (-7) ++ payload)
    /\ readObject Sample.integerService (mkDataInput (VBuffer (out_buffer out')) 2 false)
       = Ok (VNumber 14, rest).
Proof.
  apply (writeObject_readObject_roundtrip Sample.hashOfBytes Sample.collaborators
           Sample.integerConfig Sample.integerService (mkDataOutput [9; 9] false)
           (VNumber 14) Sample.IntegerSerializer).
  - exact sample_integerService_constructed.
  - reflexivity.
  - reflexivity.
  - exists [14; 0; 0; 0],
      (mkDataInput (VBuffer [9; 9; 249; 255; 255; 255; 14; 0; 0; 0]) 10 false).
    split; vm_compute; reflexivity.
Defined.

Lemma envelope_type_is_codec_id_witness :
  exists data,
    toData Sample.hashOfBytes Sample.littleEndianService Sample.taggedWithKey
      (Sample.constantStrategy 1) = Ok data
    /\ callMethod Sample.hashOfBytes data "getType" = Ok (VNumber 10).
Proof.
  apply (envelope_type_is_codec_id Sample.hashOfBytes Sample.littleEndianService
           Sample.taggedWithKey (Sample.constantStrategy 1)
           (VHeapData [0;0;0;0; 255;255;255;252; 1]) 1 Sample.customSerializer10
           (int32LE 42)).
  - reflexivity.
  - reflexivity.
  - vm_compute; reflexivity.
  - reflexivity.
  - reflexivity.
  - reflexivity.
  - vm_compute; reflexivity.
Defined.

Lemma toData_partition_key_failure_witness :
  toData Sample.hashOfBytes Sample.service Sample.keyedByUnregisteredTag
    (Sample.constantStrategy 1)
  = Throw (TypeError "Cannot read properties of undefined (reading 'id')").
Proof.
  apply (toData_partition_key_failure Sample.hashOfBytes Sample.service
           Sample.keyedByUnregisteredTag (Sample.constantStrategy 1)
           (SCodec (jsonSerializer Sample.collaborators Sample.defaultConfig))).
  - reflexivity.
  - reflexivity.
  - reflexivity.
  - vm_compute; reflexivity.
Defined.

Lemma toData_strategy_on_subject_only_witness :
  toData Sample.hashOfBytes Sample.littleEndianService Sample.taggedWithKey
    (Sample.constantStrategy 1)
  = toData Sample.hashOfBytes Sample.littleEndianService Sample.taggedWithKey
      Sample.envelopeStrategy.
Proof.
  apply (toData_strategy_on_subject_only Sample.hashOfBytes Sample.littleEndianService
           Sample.taggedWithKey (Sample.constantStrategy 1) Sample.envelopeStrategy).
  intros subject H. vm_compute in H. injection H as <-. reflexivity.
Defined.

Lemma toObject_dispatches_on_type_id_witness :
  toObject Sample.hashOfBytes Sample.service (VHeapData (int32BE 0 ++ int32BE 12345 ++ []))
  = match registry Sample.service !! 12345 with
    | Some s =>
        fst <$> read s (new_ObjectDataInput (VBuffer (int32BE 0 ++ int32BE 12345 ++ []))
                          DATA_OFFSET (isBigEndian (serializationConfig Sample.service)))
    | None =>
        Throw (RangeErrorAbout "There is no suitable deserializer for data with type "
                 (VNumber 12345))
    end.
Proof.
  apply (toObject_dispatches_on_type_id Sample.hashOfBytes Sample.service 0 12345 []).
  reflexivity.
Defined.
